(** * hockey_scraper: the single-game reconciliation code, embedded in Rocq

    The development follows [src/espn_pbp.py] (the auxiliary-feed
    normaliser) and [src/game_scraper.py] (player identity resolution,
    the two merge functions, the diagnostic lists and the per-game driver).

    Python values are modelled by the type [val]; Python exceptions by the
    error monad [outcome]; the four module-level lists of
    [game_scraper.py] by the record [Diag], threaded through the state
    monad [M].  A pandas DataFrame is a list of column labels together
    with a list of labelled rows, each row a record from column label to
    cell. *)

From Stdlib Require Import Ascii String ZArith QArith Qround.
From stdpp Require Import base option list strings gmap.

Open Scope Z_scope.
Open Scope string_scope.
Open Scope list_scope.

(** ** Python values and exceptions *)

(** A cell of a table or an element of a Python list.  [VNull] stands for
    both [None] and [NaN]; a float is represented by a rational. *)
Inductive val :=
| VNull
| VBool (b : bool)
| VInt (z : Z)
| VFlt (q : Q)
| VStr (s : string).

#[global] Instance Q_eq_dec : EqDecision Q.
Proof. solve_decision. Defined.

#[global] Instance val_eq_dec : EqDecision val.
Proof. solve_decision. Defined.

Inductive exn := KeyError | IndexError | ValueError | TypeError | AttributeError | ParseError | OtherError.

(** The result of running a piece of Python: a value or a raised exception. *)
Inductive outcome (A : Type) :=
| Ret (a : A)
| Raise (e : exn).
Arguments Ret {A} a.
Arguments Raise {A} e.

#[global] Instance outcome_ret : MRet outcome := fun _ a => Ret a.
#[global] Instance outcome_bind : MBind outcome := fun _ _ f m =>
  match m with Ret a => f a | Raise e => Raise e end.
#[global] Instance outcome_fmap : FMap outcome := fun _ _ f m =>
  match m with Ret a => Ret (f a) | Raise e => Raise e end.

(** [for x in l: f x] collecting the results; the first exception aborts. *)
Fixpoint mapO {A B} (f : A → outcome B) (l : list A) : outcome (list B) :=
  match l with
  | [] => Ret []
  | x :: t => y ← f x; ys ← mapO f t; Ret (y :: ys)
  end.

(** Python truthiness, as used by [not x]. *)
Definition truthy (v : val) : bool :=
  match v with
  | VNull => false
  | VBool b => b
  | VInt z => negb (z =? 0)%Z
  | VFlt q => negb (Qnum q =? 0)%Z
  | VStr s => negb (bool_decide (s = ""))
  end.

(** ** The collaborators that are not part of the two modules

    [shared.fix_name], [shared.convert_to_seconds], the builtins [float]
    and [int] on strings and [xml.etree.ElementTree.fromstring] are taken
    as an interface. *)

(** An XML element: its text and its children. *)
#[warnings="-register-all"] Inductive element := Element (text : option string) (children : list element).

Definition el_text (e : element) : option string := match e with Element t _ => t end.
Definition el_children (e : element) : list element := match e with Element _ c => c end.

Class Externals := {
  fix_name : string → string;
  convert_to_seconds : string → outcome val;
  py_float : string → outcome val;
  py_int : string → option Z;
  fromstring : string → option element   (* [None]: etree.ParseError *)
}.

(** ** Strings *)

Definition ascii_upper (a : ascii) : ascii :=
  let n := N_of_ascii a in
  if ((97 <=? n) && (n <=? 122))%N then ascii_of_N (n - 32) else a.

(** [s.upper()] on the ASCII letters. *)
Fixpoint upper (s : string) : string :=
  match s with
  | EmptyString => EmptyString
  | String a t => String (ascii_upper a) (upper t)
  end.

Fixpoint str_prefix (p s : string) : bool :=
  match p, s with
  | EmptyString, _ => true
  | String a p', String b s' => if decide (a = b) then str_prefix p' s' else false
  | String _ _, EmptyString => false
  end.

(** [k in s] for strings. *)
Fixpoint str_in (k s : string) : bool :=
  str_prefix k s ||
  match s with
  | EmptyString => false
  | String _ s' => str_in k s'
  end.

(** [s.split(sep)] for a one-character separator. *)
Fixpoint split (sep : ascii) (s : string) : list string :=
  match s with
  | EmptyString => [EmptyString]
  | String a t =>
      if decide (a = sep) then EmptyString :: split sep t
      else match split sep t with
           | f :: fs => String a f :: fs
           | [] => [String a EmptyString]
           end
  end.

(** [s.replace(a, b)] for one-character [a] and [b]. *)
Fixpoint replace_char (a b : ascii) (s : string) : string :=
  match s with
  | EmptyString => EmptyString
  | String c t => String (if decide (c = a) then b else c) (replace_char a b t)
  end.

(** [s[-n:]] for [n > 0]: the last [n] characters, the whole string when it is shorter. *)
Definition str_last (n : nat) (s : string) : string :=
  string_of_list_ascii (drop (String.length s - n)%nat (list_ascii_of_string s)).

(** [s[:n]]. *)
Definition str_first (n : nat) (s : string) : string :=
  string_of_list_ascii (take n (list_ascii_of_string s)).

(** [l[i]] on a Python list. *)
Definition item {A} (l : list A) (i : nat) : outcome A :=
  match l !! i with Some x => Ret x | None => Raise IndexError end.

(** ** Tables (pandas DataFrames) *)

(** A row is a record from column label to cell. *)
Definition Row := list (string * val).

Fixpoint assoc (c : string) (r : Row) : option val :=
  match r with
  | [] => None
  | (k, v) :: t => if decide (k = c) then Some v else assoc c t
  end.

Definition get (r : Row) (c : string) : val := default VNull (assoc c r).

(** The row with the cells [f c] for the labels [cols]. *)
Definition mk_row (cols : list string) (f : string → val) : Row :=
  (λ c, (c, f c)) <$> cols.

(** A frame: the column labels and the rows, each with its index label. *)
Record DataFrame := mkDF {
  columns : list string;
  rows : list (Z * Row)
}.

#[global] Instance DataFrame_eq_dec : EqDecision DataFrame.
Proof. solve_decision. Defined.

(** [df.shape[0]] *)
Definition nrows (df : DataFrame) : nat := length (rows df).

(** [df.empty] *)
Definition df_empty (df : DataFrame) : bool :=
  bool_decide (rows df = []) || bool_decide (columns df = []).

(** The default index [0, 1, ..., n-1] put on a list of rows. *)
Definition range_index (rs : list Row) : list (Z * Row) :=
  imap (λ i r, (Z.of_nat i, r)) rs.

(** [pd.DataFrame(records, columns=cols)] for a list of dicts. *)
Definition df_of_records (recs : list Row) (cols : list string) : DataFrame :=
  mkDF cols (range_index ((λ r, mk_row cols (get r)) <$> recs)).

(** [pd.DataFrame([], columns=cols)] *)
Definition df_nil (cols : list string) : DataFrame := mkDF cols [].

Definition has_cols (cs : list string) (df : DataFrame) : bool :=
  forallb (λ c, bool_decide (c ∈ columns df)) cs.

(** [df.c]: the cells of column [c]; an [AttributeError] when there is no such column. *)
Definition df_column (c : string) (df : DataFrame) : outcome (list val) :=
  if bool_decide (c ∈ columns df) then Ret ((λ r, get r.2 c) <$> rows df)
  else Raise AttributeError.

(** [df.drop(labels, axis=1)] *)
Definition df_drop (labels : list string) (df : DataFrame) : outcome DataFrame :=
  if has_cols labels df then
    let cols := filter (λ c, c ∉ labels) (columns df) in
    Ret (mkDF cols ((λ r, (r.1, mk_row cols (get r.2))) <$> rows df))
  else Raise KeyError.

(** [df[labels]] for a list of labels *)
Definition df_select (labels : list string) (df : DataFrame) : outcome DataFrame :=
  if has_cols labels df then
    Ret (mkDF labels ((λ r, (r.1, mk_row labels (get r.2))) <$> rows df))
  else Raise KeyError.

(** One cell under [astype(int)]: a float is truncated towards zero, a
    string goes through [int], a null cannot be converted. *)
Definition astype_int `{Externals} (v : val) : outcome val :=
  match v with
  | VInt z => Ret (VInt z)
  | VBool b => Ret (VInt (if b then 1 else 0))
  | VFlt q => Ret (VInt (Z.quot (Qnum q) (Z.pos (Qden q))))
  | VStr s => match py_int s with Some z => Ret (VInt z) | None => Raise ValueError end
  | VNull => Raise TypeError
  end.

(** [df.c = df.c.astype(int)] *)
Definition df_astype_int `{Externals} (c : string) (df : DataFrame) : outcome DataFrame :=
  if bool_decide (c ∈ columns df) then
    rs ← mapO (λ r, v ← astype_int (get r.2 c);
                    Ret (r.1, mk_row (columns df) (λ c', if decide (c' = c) then v else get r.2 c')))
              (rows df);
    Ret (mkDF (columns df) rs)
  else Raise AttributeError.

(** [df[c] = v] for a scalar [v]: the column is overwritten, or added last. *)
Definition df_set (c : string) (v : val) (df : DataFrame) : DataFrame :=
  let cols := if decide (c ∈ columns df) then columns df else columns df ++ [c] in
  mkDF cols ((λ r, (r.1, mk_row cols (λ c', if decide (c' = c) then v else get r.2 c'))) <$> rows df).

(** [pd.DataFrame(df, columns=cols)]: the listed columns in the listed
    order; a label the frame does not have gives a column of nulls. *)
Definition df_reindex_columns (cols : list string) (df : DataFrame) : DataFrame :=
  mkDF cols ((λ r, (r.1, mk_row cols (λ c, if decide (c ∈ columns df) then get r.2 c else VNull)))
               <$> rows df).

(** Keep the first element of each class of [key]; [seen] are the keys met so far. *)
Fixpoint dedup_first {A K} `{EqDecision K} (key : A → K) (seen : list K) (l : list A) : list A :=
  match l with
  | [] => []
  | x :: t =>
      if decide (key x ∈ seen) then dedup_first key seen t
      else x :: dedup_first key (key x :: seen) t
  end.

(** The cells of a row at the labels [cs]. *)
Definition cells (cs : list string) (r : Z * Row) : list val := get r.2 <$> cs.

(** [df.drop_duplicates(subset=cs)] (keep='first') *)
Definition df_drop_duplicates (cs : list string) (df : DataFrame) : outcome DataFrame :=
  if has_cols cs df then Ret (mkDF (columns df) (dedup_first (cells cs) [] (rows df)))
  else Raise KeyError.

(** *** pd.merge(left, right, how='left') *)

(** The suffix put on a label that both sides have. *)
Definition suffix_cols (sfx : string) (others cols : list string) : list string :=
  (λ c, if decide (c ∈ others) then c +:+ sfx else c) <$> cols.

(** One row of the result: the cells of the left row, then those of the
    matching right row, nulls when there is none. *)
Definition join_rows (lcols rcols lnames rnames : list string) (l : Row) (r : option Row) : Row :=
  zip lnames (get l <$> lcols) ++
  zip rnames ((λ c, match r with Some r => get r c | None => VNull end) <$> rcols).

(** Left outer join: the left rows in their order, each once for every
    matching right row (in the right order), once when nothing matches. *)
Definition left_join (mk : Row → option Row → Row) (matches : Z * Row → Z * Row → bool)
    (lrows rrows : list (Z * Row)) : list (Z * Row) :=
  lrows ≫= (λ l, match filter (λ r, matches l r = true) rrows with
                   | [] => [(l.1, mk l.2 None)]
                   | ms => (λ r, (l.1, mk l.2 (Some r.2))) <$> ms
                   end).

Definition is_str (v : val) : bool := match v with VStr _ => true | _ => false end.
Definition is_num (v : val) : bool :=
  match v with VInt _ | VFlt _ | VBool _ => true | _ => false end.

(** pandas refuses to merge a key column of strings with a numeric one. *)
Definition key_kinds_ok (left right : DataFrame) (lk rk : string) : bool :=
  let lc := (λ r, get r.2 lk) <$> rows left in
  let rc := (λ r, get r.2 rk) <$> rows right in
  negb ((existsb is_str lc && existsb is_num rc) || (existsb is_num lc && existsb is_str rc)).

(** The labels of the result: a label that both sides have gets the
    suffix [_x] on the left and [_y] on the right. *)
Definition merge_columns (lcols rcols : list string) : list string :=
  suffix_cols "_x" rcols lcols ++ suffix_cols "_y" lcols rcols.

Definition merge_row (lcols rcols : list string) : Row → option Row → Row :=
  join_rows lcols rcols (suffix_cols "_x" rcols lcols) (suffix_cols "_y" lcols rcols).

(** The keys that have the same label on both sides: such a key is kept
    once, the left one unless the left frame has no rows. *)
Definition same_keys (lon ron : list string) : list string :=
  fst <$> filter (λ k, k.1 = k.2) (zip lon ron).

Definition merge_lcols (left : DataFrame) (lon ron : list string) : list string :=
  if bool_decide (rows left = []) then filter (λ c, c ∉ same_keys lon ron) (columns left)
  else columns left.

Definition merge_rcols (left right : DataFrame) (lon ron : list string) : list string :=
  if bool_decide (rows left = []) then columns right
  else filter (λ c, c ∉ same_keys lon ron) (columns right).

(** [pd.merge(left, right, left_on=lon, right_on=ron, how='left')]; the
    result has a fresh default index. *)
Definition df_merge_on (left right : DataFrame) (lon ron : list string) : outcome DataFrame :=
  if negb (has_cols lon left && has_cols ron right) then Raise KeyError
  else if negb (bool_decide (length lon = length ron)) then Raise ValueError
  else if negb (forallb (λ k, key_kinds_ok left right k.1 k.2) (zip lon ron)) then Raise ValueError
  else
    let lcols := merge_lcols left lon ron in
    let rcols := merge_rcols left right lon ron in
    Ret (mkDF (merge_columns lcols rcols)
           (range_index (snd <$>
              left_join (merge_row lcols rcols)
                        (λ l r, bool_decide (cells lon l = cells ron r))
                        (rows left) (rows right)))).

(** [pd.merge(left, right, left_index=True, right_index=True, how='left')]:
    the rows are matched on their index labels and keep the left label. *)
Definition df_merge_index (left right : DataFrame) : DataFrame :=
  mkDF (merge_columns (columns left) (columns right))
       (left_join (merge_row (columns left) (columns right))
                  (λ l r, bool_decide (l.1 = r.1))
                  (rows left) (rows right)).

(** ** espn_pbp.py: the auxiliary-feed normaliser *)

Module espn_pbp.

(** The dict literal of [event_type], in its insertion order. *)
Definition events : list (string * string) :=
  [("GOAL SCORED", "GOAL"); ("SHOT ON GOAL", "SHOT"); ("SHOT MISSED", "MISS"); ("SHOT BLOCKED", "BLOCK");
   ("PENALTY", "PENL"); ("FACEOFF", "FAC"); ("HIT", "HIT"); ("TAKEAWAY", "TAKE"); ("GIVEAWAY", "GIVE")].

Definition event_type (play_description : string) : option string :=
  let event := snd <$> filter (λ e, str_in e.1 play_description = true) events in
  head event.

Definition parse_event `{Externals} (event : string) : outcome (option Row) :=
  let fields := split "~" event in
  f4 ← item fields 4;
  if decide (f4 = "5") then Ret None
  else
    f0 ← item fields 0; xC ← py_float f0;
    f1 ← item fields 1; yC ← py_float f1;
    f3 ← item fields 3; time_elapsed ← convert_to_seconds f3;
    f8 ← item fields 8;
    Ret (Some [("xC", xC); ("yC", yC); ("time_elapsed", time_elapsed); ("period", VStr f4);
               ("event", from_option VStr VNull (event_type (upper f8)))]).

Definition columns : list string := ["period"; "time_elapsed"; "event"; "xC"; "yC"].

(** An element without text has [event.text = None], on which
    [parse_event] raises at [event.split]. *)
Definition parse_espn `{Externals} (espn_xml : string) : outcome DataFrame :=
  let espn_xml := replace_char "019" "-" espn_xml in
  match fromstring espn_xml with
  | None => Ret (df_nil columns)
  | Some tree =>
      events ← item (el_children tree) 1;
      plays ← mapO (λ event, match el_text event with
                             | Some t => parse_event t
                             | None => Raise AttributeError
                             end) (el_children events);
      let plays := omap id plays in
      Ret (df_of_records plays columns)
  end.

(** [scrape_game]; [fetched] is the result of [get_espn_game], which
    downloads the feed. *)
Definition scrape_game `{Externals} (fetched : outcome string) : option DataFrame :=
  match fetched with
  | Raise _ => None
  | Ret espn_xml =>
      match parse_espn espn_xml with
      | Raise _ => None
      | Ret espn_df => Some espn_df
      end
  end.

(** [range(0, n, 2)] *)
Definition range_step2 (n : nat) : list nat := (λ k, 2 * k)%nat <$> seq 0 ((n + 1) / 2).

(** [get_teams]; [td] are the texts of the cells of class [team] that the
    page has, [get_team] is [shared.get_team]. *)
Definition get_teams (get_team : string → string) (td : list string) : list (list string) :=
  let teams := (λ t, get_team (upper t)) <$> filter (λ t, t ≠ "") td in
  (* Make a list of both teams for each game *)
  let games := (λ i, take 2 (drop i teams)) <$> range_step2 (length teams) in
  games.

(** [get_espn_game_id]; [game_ids] and [games] are what [get_game_ids]
    and [get_teams] read from the page of the day.  Falling out of the
    loop returns [None]. *)
Definition get_espn_game_id (game_ids : list string) (games : list (list string))
    (home_team away_team : string) : outcome (option string) :=
  match list_find (λ g, home_team ∈ g ∨ away_team ∈ g) games with
  | Some (i, _) => Some <$> item game_ids i
  | None => Ret None
  end.

End espn_pbp.

(** ** game_scraper.py *)

Module game_scraper.


Definition pbp_columns : list string :=
  ["Game_Id"; "Date"; "Period"; "Event"; "Description"; "Time_Elapsed"; "Seconds_Elapsed"; "Strength";
   "Ev_Zone"; "Type"; "Ev_Team"; "Home_Zone"; "Away_Team"; "Home_Team"; "p1_name"; "p1_ID"; "p2_name"; "p2_ID";
   "p3_name"; "p3_ID"; "awayPlayer1"; "awayPlayer1_id"; "awayPlayer2"; "awayPlayer2_id"; "awayPlayer3";
   "awayPlayer3_id"; "awayPlayer4"; "awayPlayer4_id"; "awayPlayer5"; "awayPlayer5_id"; "awayPlayer6";
   "awayPlayer6_id"; "homePlayer1"; "homePlayer1_id"; "homePlayer2"; "homePlayer2_id"; "homePlayer3";
   "homePlayer3_id"; "homePlayer4"; "homePlayer4_id"; "homePlayer5"; "homePlayer5_id"; "homePlayer6";
   "homePlayer6_id"; "Away_Players"; "Home_Players"; "Away_Score"; "Home_Score"; "Away_Goalie";
   "Away_Goalie_Id"; "Home_Goalie"; "Home_Goalie_Id"; "xC"; "yC"; "Home_Coach"; "Away_Coach"].

(** The subset of [drop_duplicates] in both merge functions. *)
Definition dup_subset : list string := ["Period"; "Event"; "Description"; "Seconds_Elapsed"].

(** [try: body  except Exception: return None], then the rest of the function. *)
Definition try_or_none {A B} (body : outcome A) (rest : A → outcome (option B)) : outcome (option B) :=
  match body with
  | Ret a => rest a
  | Raise _ => Ret None
  end.

(** The warnings printed through [shared.print_warning] are not part of
    the model; the test [if 'CHL' in list(html_df.Event)] that only chooses
    between two of them is kept as the access to [html_df.Event]. *)
Definition combine_html_json_pbp `{Externals}
    (json_df html_df : DataFrame) (game_id : string) (date : val) : outcome (option DataFrame) :=
  json_df ← df_drop ["p1_name"; "p2_name"; "p2_ID"; "p3_name"; "p3_ID"] json_df;
  try_or_none
    (html_df ← df_astype_int "Period" html_df;
     game_df ← (if bool_decide (nrows html_df = nrows json_df) then
                  json_df ← df_select ["period"; "event"; "seconds_elapsed"; "xC"; "yC"] json_df;
                  Ret (df_merge_index html_df json_df)
                else
                  _ ← df_column "Event" html_df;
                  df_merge_on html_df json_df
                    ["Period"; "Event"; "Seconds_Elapsed"; "p1_ID"]
                    ["period"; "event"; "seconds_elapsed"; "p1_ID"]);
     df_drop_duplicates dup_subset game_df)
    (λ game_df,
       let game_df := df_set "Game_Id" (VStr (str_last 5 game_id)) game_df in
       let game_df := df_set "Date" date game_df in
       Ret (Some (df_reindex_columns pbp_columns game_df))).

Definition combine_espn_html_pbp `{Externals}
    (html_df : DataFrame) (espn_df : option DataFrame) (game_id : string) (date away_team home_team : val)
    : outcome (option DataFrame) :=
  try_or_none
    (match espn_df with
     | Some espn_df =>
         espn_df ← df_astype_int "period" espn_df;
         game_df ← df_merge_on html_df espn_df
                     ["Period"; "Seconds_Elapsed"; "Event"] ["period"; "time_elapsed"; "event"];
         game_df ← df_drop_duplicates dup_subset game_df;
         df_drop ["period"; "time_elapsed"; "event"] game_df
     | None => Ret html_df
     end)
    (λ df,
       let df := df_set "Game_Id" (VStr (str_last 5 game_id)) df in
       let df := df_set "Date" date df in
       let df := df_set "Away_Team" away_team df in
       let df := df_set "Home_Team" home_team df in
       Ret (Some (df_reindex_columns pbp_columns df))).

(** *** The diagnostic lists and the state monad *)

(** The four module-level lists; each record is a two-element list. *)
Record Diag := mkDiag {
  broken_shifts_games : list (val * val);
  broken_pbp_games : list (val * val);
  players_missing_ids : list (val * val);
  missing_coords : list (val * val)
}.

Definition no_diag : Diag := mkDiag [] [] [] [].

(** A computation that reads and extends the lists and may raise; what
    was appended before an exception stays appended. *)
Definition M (A : Type) : Type := Diag → outcome A * Diag.

#[global] Instance M_ret : MRet M := λ _ a d, (Ret a, d).
#[global] Instance M_bind : MBind M := λ _ _ f m d,
  match m d with
  | (Ret a, d') => f a d'
  | (Raise e, d') => (Raise e, d')
  end.

Definition lift {A} (o : outcome A) : M A := λ d, (o, d).
Definition read_players_missing_ids : M (list (val * val)) := λ d, (Ret (players_missing_ids d), d).

(** [l.extend([[a, b]])] for each of the four lists. *)
Definition extend_broken_shifts_games (r : val * val) : M unit := λ d,
  (Ret (), mkDiag (broken_shifts_games d ++ [r]) (broken_pbp_games d) (players_missing_ids d) (missing_coords d)).
Definition extend_broken_pbp_games (r : val * val) : M unit := λ d,
  (Ret (), mkDiag (broken_shifts_games d) (broken_pbp_games d ++ [r]) (players_missing_ids d) (missing_coords d)).
Definition extend_players_missing_ids (r : val * val) : M unit := λ d,
  (Ret (), mkDiag (broken_shifts_games d) (broken_pbp_games d) (players_missing_ids d ++ [r]) (missing_coords d)).
Definition extend_missing_coords (r : val * val) : M unit := λ d,
  (Ret (), mkDiag (broken_shifts_games d) (broken_pbp_games d) (players_missing_ids d) (missing_coords d ++ [r])).

(** [for x in l: f x] in [M]. *)
Fixpoint forM {A} (f : A → M unit) (l : list A) : M unit :=
  match l with
  | [] => mret ()
  | x :: t => _ ← f x; forM f t
  end.

(** [row[c]] on a row of a frame. *)
Definition row_item (row : Row) (c : string) : outcome val :=
  match assoc c row with Some v => Ret v | None => Raise KeyError end.

(** *** Goalie validation *)

Definition check_goalie_side (row : Row) (goalie goalie_id : string) : M unit :=
  g ← lift (row_item row goalie);
  bad ← (if decide (g ≠ VStr "") then
           i ← lift (row_item row goalie_id); mret (bool_decide (i = VStr "NA"))
         else mret false);
  if (bad : bool) then
    g ← lift (row_item row goalie);
    gid ← lift (row_item row "Game_Id");
    missing ← read_players_missing_ids;
    if decide ((g, gid) ∉ missing) then
      g ← lift (row_item row goalie);
      gid ← lift (row_item row "Game_Id");
      extend_players_missing_ids (g, gid)
    else mret ()
  else mret ().

Definition check_goalie (row : Row) : M unit :=
  _ ← check_goalie_side row "Away_Goalie" "Away_Goalie_Id";
  check_goalie_side row "Home_Goalie" "Home_Goalie_Id".

(** *** Player identity resolution *)

Definition get_sebastian_aho (player : list val) : outcome val :=
  p1 ← item player 1;
  Ret (if decide (p1 = VStr "D") then VInt 8480222 else VInt 8478427).

(** An entry of the dict built by [get_players_json]. *)
Record JsonPlayer := mkJsonPlayer { js_id : val; js_last_name : string }.

(** An entry of the dicts built by [combine_players_lists]. *)
Record Player := mkPlayer { pl_id : val; pl_number : val; pl_last_name : val }.

(** [d[k]] on a JSON object *)
Definition json_item (d : gmap string val) (k : string) : outcome val :=
  match d !! k with Some v => Ret v | None => Raise KeyError end.

(** [v.upper()]; only a string has the method. *)
Definition val_upper (v : val) : outcome string :=
  match v with VStr s => Ret (upper s) | _ => Raise AttributeError end.

(** One turn of the loop of [get_players_json] on the entry [pj]. *)
Definition get_players_json_step `{Externals}
    (players : gmap string JsonPlayer) (pj : gmap string val) : outcome (gmap string JsonPlayer) :=
  full ← json_item pj "fullName"; full ← val_upper full;
  let name := fix_name full in
  last ← json_item pj "lastName"; last ← val_upper last;
  let players := <[name := mkJsonPlayer (VStr " ") last]> players in
  match json_item pj "id" with
  | Ret i => Ret (<[name := mkJsonPlayer i last]> players)
  | Raise KeyError => Ret (<[name := mkJsonPlayer (VStr "NA") last]> players)
  | Raise e => Raise e
  end.

Fixpoint foldO {A B} (f : A → B → outcome A) (a : A) (l : list B) : outcome A :=
  match l with
  | [] => Ret a
  | x :: t => a' ← f a x; foldO f a' t
  end.

(** [players_json] is the JSON object in its key order. *)
Definition get_players_json `{Externals} (players_json : list (string * gmap string val))
    : outcome (gmap string JsonPlayer) :=
  foldO get_players_json_step ∅ (snd <$> players_json).

(** The argument of [shared.fix_name] is a string. *)
Definition val_fix_name `{Externals} (v : val) : outcome string :=
  match v with VStr s => Ret (fix_name s) | _ => Raise AttributeError end.

(** One turn of the inner loop of [combine_players_lists]: the roster entry
    [player] of one venue, whose dict so far is [players].  The list
    [player] is extended in place on the [except] path; nothing reads it
    afterwards but the next statement. *)
Definition combine_player `{Externals} (json_players : gmap string JsonPlayer) (game_id : val)
    (players : gmap string Player) (player : list val) : M (gmap string Player) :=
  p2 ← lift (item player 2);
  name ← lift (val_fix_name p2);
  match json_players !! name with
  | Some jp =>
      player_id ← lift (if decide (name ≠ "SEBASTIAN AHO") then Ret (js_id jp)
                        else get_sebastian_aho player);
      p0 ← lift (item player 0);
      mret (<[name := mkPlayer player_id p0 (VStr (js_last_name jp))]> players)
  | None =>
      (* except KeyError *)
      p3 ← lift (item player 3);
      scratch_or_goalie ← (if negb (truthy p3) then
                             p1 ← lift (item player 1); mret (bool_decide (p1 = VStr "G"))
                           else mret true);
      if (scratch_or_goalie : bool) then mret players
      else
        let player := player ++ [game_id] in
        p2 ← lift (item player 2);
        p4 ← lift (item player 4);
        _ ← extend_players_missing_ids (p2, p4);
        p0 ← lift (item player 0);
        mret (<[name := mkPlayer (VStr "NA") p0 (VStr "")]> players)
  end.

Fixpoint foldM {A B} (f : A → B → M A) (a : A) (l : list B) : M A :=
  match l with
  | [] => mret a
  | x :: t => a' ← f a x; foldM f a' t
  end.

Definition combine_venue `{Externals} (json_players : gmap string JsonPlayer)
    (roster_players : gmap string (list (list val))) (game_id : val) (venue : string)
    : M (gmap string Player) :=
  match roster_players !! venue with
  | Some l => foldM (combine_player json_players game_id) ∅ l
  | None => lift (Raise KeyError)
  end.

(** The result: the dict of the key ['Home'] and the dict of the key ['Away']. *)
Definition combine_players_lists `{Externals} (json_players : gmap string JsonPlayer)
    (roster_players : gmap string (list (list val))) (game_id : val)
    : M (gmap string (gmap string Player)) :=
  home ← combine_venue json_players roster_players game_id "Home";
  away ← combine_venue json_players roster_players game_id "Away";
  mret (<["Away" := away]> (<["Home" := home]> ∅)).

(** *** The per-game driver *)

(** What the roster page gives: [roster['players']] and [roster['head_coaches']]. *)
Record Roster := mkRoster {
  roster_players : gmap string (list (list val));
  head_coaches : gmap string val
}.

(** What the driver reads of the structured feed of one game: the result
    of [json_pbp.get_teams], [game_json['gameData']['players']] (absent:
    a [KeyError]) and [len(game_json['liveData']['plays']['allPlays'])]. *)
Record GameJson := mkGameJson {
  gj_teams : outcome (gmap string val);
  gj_players : outcome (list (string * gmap string val));
  gj_n_plays : outcome nat
}.

(** What the other modules return for one game: [json_pbp.parse_json],
    [html_pbp.scrape_game], [espn_pbp.get_espn_game], [shared.get_season],
    [json_shifts.scrape_game] and [html_shifts.scrape_game]. *)
Record Fetched := mkFetched {
  parsed_json : option DataFrame;
  scraped_html : option DataFrame;
  espn_feed : outcome string;
  season : Z;
  json_shifts : option DataFrame;
  html_shifts : option DataFrame
}.

(** [try: ... except Exception: return None, None] *)
Definition get_teams_and_players `{Externals} (game_json : option GameJson) (roster : option Roster)
    (game_id : val) : M (option (gmap string (gmap string Player)) * option (gmap string val)) :=
  λ d,
    let body : M (gmap string (gmap string Player) * gmap string val) :=
      game_json ← lift (from_option Ret (Raise TypeError) game_json);
      teams ← lift (gj_teams game_json);
      pj ← lift (gj_players game_json);
      player_ids ← lift (get_players_json pj);
      roster ← lift (from_option Ret (Raise TypeError) roster);
      players ← combine_players_lists player_ids (roster_players roster) game_id;
      mret (players, teams) in
    match body d with
    | (Ret (players, teams), d') => (Ret (Some players, Some teams), d')
    | (Raise _, d') => (Ret (None, None), d')
    end.

Definition dict_item (d : gmap string val) (k : string) : outcome val :=
  match d !! k with Some v => Ret v | None => Raise KeyError end.

(** [html_df] is the optional argument of the same name. *)
Definition scrape_pbp `{Externals} (game_id : string) (date : val) (roster : Roster)
    (game_json : GameJson) (teams : gmap string val) (f : Fetched) (html_df : option DataFrame)
    : M (option DataFrame) :=
  year ← lift (from_option Ret (Raise ValueError) (py_int (str_first 4 game_id)));
  (* [None]: the early [return None] *)
  json ← lift (if bool_decide (2010 ≤ year)%Z then
                 match parsed_json f with
                 | None => Ret None
                 | Some json_df => n ← gj_n_plays game_json; Ret (Some (json_df, bool_decide (0 < n)%nat))
                 end
               else Ret (Some (df_nil [], false)));
  match json with
  | None => mret None
  | Some (json_df, if_json) =>
      let html_df := match html_df with Some h => Some h | None => scraped_html f end in
      match html_df with
      | None => mret None
      | Some html_df =>
          game_df ←
            (if negb if_json then
               _ ← lift (dict_item teams "Home");
               _ ← lift (dict_item teams "Away");
               let espn_df := espn_pbp.scrape_game (espn_feed f) in
               away ← lift (dict_item teams "Away");
               home ← lift (dict_item teams "Home");
               game_df ← lift (combine_espn_html_pbp html_df espn_df game_id date away home);
               _ ← (if match espn_df with None => true | Some e => df_empty e end
                    then extend_missing_coords (VStr game_id, date) else mret ());
               mret game_df
             else lift (combine_html_json_pbp json_df html_df game_id date));
          match game_df with
          | None => mret None
          | Some game_df =>
              hc ← lift (dict_item (head_coaches roster) "Home");
              let game_df := df_set "Home_Coach" hc game_df in
              ac ← lift (dict_item (head_coaches roster) "Away");
              let game_df := df_set "Away_Coach" ac game_df in
              mret (Some game_df)
          end
      end
  end.

Definition scrape_shifts (game_id date : val) (f : Fetched) : M (option DataFrame) :=
  let shifts_df := if bool_decide (2010 ≤ season f)%Z then json_shifts f else None in
  match shifts_df with
  | Some s => mret (Some (df_set "Date" date s))
  | None =>
      match html_shifts f with
      | Some s => mret (Some (df_set "Date" date s))
      | None => _ ← extend_broken_shifts_games (game_id, date); mret None
      end
  end.

(** [roster] and [game_json] are the results of
    [playing_roster.scrape_roster] and [json_pbp.get_pbp]; a dict that is
    returned has keys, so only [None] is falsy. *)
Definition scrape_game `{Externals} (game_id : string) (date : val) (if_scrape_shifts : bool)
    (roster : option Roster) (game_json : option GameJson) (f : Fetched)
    : M (option DataFrame * option DataFrame) :=
  pt ← get_teams_and_players game_json roster (VStr game_id);
  match roster, game_json, pt with
  | Some roster, Some game_json, (Some players, Some teams) =>
      if bool_decide (teams = ∅) then
        _ ← extend_broken_pbp_games (VStr game_id, date);
        _ ← (if if_scrape_shifts then extend_broken_shifts_games (VStr game_id, date) else mret ());
        mret (None, None)
      else
        pbp_df ← scrape_pbp game_id date roster game_json teams f None;
        shifts_df ← (if if_scrape_shifts && bool_decide (is_Some pbp_df)
                     then scrape_shifts (VStr game_id) date f else mret None);
        _ ← (if bool_decide (pbp_df = None) then extend_broken_pbp_games (VStr game_id, date)
             else mret ());
        mret (pbp_df, shifts_df)
  | _, _, _ =>
      _ ← extend_broken_pbp_games (VStr game_id, date);
      _ ← (if if_scrape_shifts then extend_broken_shifts_games (VStr game_id, date) else mret ());
      mret (None, None)
  end.

End game_scraper.

(** ** A concrete set of collaborators, for running the functions

    [int] and [float] read an unsigned decimal numeral, the name
    correction is the identity (as it is for a name without a known
    correction), a time is a number of seconds, and a feed is well formed
    when it starts with ["<"]: it then has one play, the text after it. *)

Fixpoint digits_value (acc : Z) (s : string) : option Z :=
  match s with
  | EmptyString => Some acc
  | String a t =>
      let n := Z.of_N (N_of_ascii a) in
      if ((48 <=? n) && (n <=? 57))%Z then digits_value (10 * acc + (n - 48)) t else None
  end.

Definition int_of_digits (s : string) : option Z :=
  match s with
  | EmptyString => None
  | _ => digits_value 0 s
  end.

Definition sample_externals : Externals := {|
  fix_name := λ s, s;
  convert_to_seconds := λ s, match int_of_digits s with Some z => Ret (VInt z) | None => Raise ValueError end;
  py_float := λ s, match int_of_digits s with Some z => Ret (VFlt (z # 1)) | None => Raise ValueError end;
  py_int := int_of_digits;
  fromstring := λ s,
    match s with
    | String "<" t => Some (Element None [Element None []; Element None [Element (Some t) []]])
    | _ => None
    end
|}.

(** ** Notions used to state the properties *)

(** [k] occurs in [s] as a substring. *)
Definition occurs_in (k s : string) : Prop := ∃ a b, s = a +:+ k +:+ b.

(** The columns stamped on a frame, the last assignment first. *)
Definition stamp (st : list (string * val)) (df : DataFrame) : DataFrame :=
  foldr (λ cv df, df_set cv.1 cv.2 df) df st.

(** The cell at [c] of a row [r] of a frame with the labels [cols] once
    the stamps [st] are on it. *)
Definition stamped_cell (st : list (string * val)) (cols : list string) (r : Row) (c : string) : val :=
  match assoc c st with
  | Some v => v
  | None => if decide (c ∈ cols) then get r c else VNull
  end.

Definition html_json_stamps (game_id : string) (date : val) : list (string * val) :=
  [("Date", date); ("Game_Id", VStr (str_last 5 game_id))].

Definition espn_html_stamps (game_id : string) (date away_team home_team : val) : list (string * val) :=
  [("Home_Team", home_team); ("Away_Team", away_team); ("Date", date);
   ("Game_Id", VStr (str_last 5 game_id))].

(** The cell of a frame as its column labels show it. *)
Definition view (df : DataFrame) (r : Row) (c : string) : val :=
  if decide (c ∈ columns df) then get r c else VNull.

(** The two merges the driver chooses between, with what each one is
    given besides the textual-report table, the game id and the date. *)
Inductive merge_path :=
| Structured (json_df : DataFrame)
| Auxiliary (espn_df : option DataFrame) (away_team home_team : val).

Definition merge_on_path `{Externals} (p : merge_path) (html_df : DataFrame) (game_id : string)
    (date : val) : outcome (option DataFrame) :=
  match p with
  | Structured json_df => game_scraper.combine_html_json_pbp json_df html_df game_id date
  | Auxiliary espn_df away_team home_team =>
      game_scraper.combine_espn_html_pbp html_df espn_df game_id date away_team home_team
  end.

(** The columns of the table joined to the textual report; the
    structured merge first drops five of them. *)
Definition path_columns (p : merge_path) : list string :=
  match p with
  | Structured json_df =>
      filter (λ c, c ∉ ["p1_name"; "p2_name"; "p2_ID"; "p3_name"; "p3_ID"]) (columns json_df)
  | Auxiliary espn_df _ _ => from_option columns [] espn_df
  end.

Definition path_stamps (p : merge_path) (game_id : string) (date : val) : list (string * val) :=
  match p with
  | Structured _ => html_json_stamps game_id date
  | Auxiliary _ away_team home_team => espn_html_stamps game_id date away_team home_team
  end.

(** The paths on which a join is made. *)
Definition joins (p : merge_path) : Prop :=
  match p with
  | Auxiliary None _ _ => False
  | _ => True
  end.

(** The textual-report table as the merge joins it: the structured
    merge first converts [Period]. *)
Definition path_left `{Externals} (p : merge_path) (html_df : DataFrame) : outcome DataFrame :=
  match p with
  | Structured _ => df_astype_int "Period" html_df
  | Auxiliary _ _ _ => Ret html_df
  end.

(** The other table as the merge joins it. *)
Definition path_right `{Externals} (p : merge_path) (html_df : DataFrame) : outcome DataFrame :=
  match p with
  | Structured json_df =>
      json_df ← df_drop ["p1_name"; "p2_name"; "p2_ID"; "p3_name"; "p3_ID"] json_df;
      if bool_decide (nrows html_df = nrows json_df)
      then df_select ["period"; "event"; "seconds_elapsed"; "xC"; "yC"] json_df
      else Ret json_df
  | Auxiliary (Some espn_df) _ _ => df_astype_int "period" espn_df
  | Auxiliary None _ _ => Ret (df_nil [])
  end.

(** The structured merge is positional when both tables have as many rows. *)
Definition positional (p : merge_path) (html_df : DataFrame) : bool :=
  match p with
  | Structured json_df => bool_decide (nrows html_df = nrows json_df)
  | Auxiliary _ _ _ => false
  end.

(** When a row [r] of the other table is joined to the row [l] of the
    textual report. *)
Definition path_matches (p : merge_path) (html_df : DataFrame) (l r : Z * Row) : bool :=
  match p with
  | Structured _ =>
      if positional p html_df then bool_decide (l.1 = r.1)
      else bool_decide (cells ["Period"; "Event"; "Seconds_Elapsed"; "p1_ID"] l
                        = cells ["period"; "event"; "seconds_elapsed"; "p1_ID"] r)
  | Auxiliary _ _ _ =>
      bool_decide (cells ["Period"; "Seconds_Elapsed"; "Event"] l
                   = cells ["period"; "time_elapsed"; "event"] r)
  end.

(** The first row of [right] joined to [l], if there is one. *)
Definition partner (p : merge_path) (html_df right : DataFrame) (l : Z * Row) : option Row :=
  snd <$> head (filter (λ r, path_matches p html_df l r = true) (rows right)).

(** The join keys that have the same label in both tables. *)
Definition path_same_keys (p : merge_path) : list string :=
  match p with
  | Structured _ => ["p1_ID"]
  | Auxiliary _ _ _ => []
  end.

(** The row a merge returns for the row [l] of the textual report and its
    partner [y]: the stamps, then the cells of [l], then those of [y]. *)
Definition merged_row (st : list (string * val)) (html_cols right_cols : list string)
    (l : Row) (y : option Row) : Row :=
  mk_row game_scraper.pbp_columns
    (λ c, match assoc c st with
          | Some v => v
          | None => if decide (c ∈ html_cols) then get l c
                    else if decide (c ∈ right_cols) then from_option (λ j, get j c) VNull y
                    else VNull
          end).

(** A roster entry as the roster page gives it: number, position, name
    and whether the player is listed as a scratch. *)
Definition wf_entry (e : list val) : Prop :=
  ∃ number position name scratch, e = [number; position; VStr name; scratch].

(** What the resolver files under the normalised name of an entry:
    nothing when the name is unknown and the entry is a scratch or a
    goalie. *)
Definition resolve_entry `{Externals} (json_players : gmap string game_scraper.JsonPlayer)
    (number position : val) (name : string) (scratch : val) : option game_scraper.Player :=
  match json_players !! fix_name name with
  | Some jp =>
      Some (game_scraper.mkPlayer
              (if decide (fix_name name ≠ "SEBASTIAN AHO") then game_scraper.js_id jp
               else if decide (position = VStr "D") then VInt 8480222 else VInt 8478427)
              number (VStr (game_scraper.js_last_name jp)))
  | None =>
      if truthy scratch || bool_decide (position = VStr "G") then None
      else Some (game_scraper.mkPlayer (VStr "NA") number (VStr ""))
  end.

(** The entries for which a record is appended to [players_missing_ids]. *)
Definition recorded `{Externals} (json_players : gmap string game_scraper.JsonPlayer)
    (e : list val) : bool :=
  match e with
  | [number; position; VStr name; scratch] =>
      bool_decide (json_players !! fix_name name = None) &&
      negb (truthy scratch) && negb (bool_decide (position = VStr "G"))
  | _ => false
  end.

(** The record appended for an entry. *)
Definition missing_record (game_id : val) (e : list val) : val * val :=
  (default VNull (e !! 2%nat), game_id).

(** [d] with [new] appended to [players_missing_ids]. *)
Definition with_missing (d : game_scraper.Diag) (new : list (val * val)) : game_scraper.Diag :=
  game_scraper.mkDiag (game_scraper.broken_shifts_games d) (game_scraper.broken_pbp_games d)
    (game_scraper.players_missing_ids d ++ new) (game_scraper.missing_coords d).

(** [d'] is [d] with keys appended to [players_missing_ids] that were
    not there, each once. *)
Definition fresh_appends (d d' : game_scraper.Diag) : Prop :=
  ∃ new, d' = with_missing d new ∧ NoDup new ∧
         ∀ k, k ∈ new → k ∉ game_scraper.players_missing_ids d.

(** The normalised name of an entry of the player directory. *)
Definition entry_name `{Externals} (pj : gmap string val) : option string :=
  match pj !! "fullName" with
  | Some (VStr s) => Some (fix_name (upper s))
  | _ => None
  end.

(** The rows carry the default index: row [i] has the label [i]. *)
Definition range_labelled (rs : list (Z * Row)) : Prop :=
  ∀ i r, rs !! i = Some r → r.1 = Z.of_nat i.

(** ** Sample tables *)

Definition sample_html_columns : list string :=
  ["Period"; "Event"; "Description"; "Time_Elapsed"; "Seconds_Elapsed"; "p1_name"; "p1_ID"].

Definition sample_json_columns : list string :=
  ["period"; "event"; "seconds_elapsed"; "p1_name"; "p1_ID"; "p2_name"; "p2_ID"; "p3_name"; "p3_ID";
   "xC"; "yC"].

(** A shot, as the textual report and as the structured feed have it. *)
Definition sample_html_shot : Row :=
  [("Period", VInt 1); ("Event", VStr "SHOT");
   ("Description", VStr "TOR ONGOAL - #34 MATTHEWS, Wrist, Off. Zone, 25 ft.");
   ("Time_Elapsed", VStr "1:05"); ("Seconds_Elapsed", VInt 65);
   ("p1_name", VStr "AUSTON MATTHEWS"); ("p1_ID", VInt 8479318)].

Definition sample_json_shot : Row :=
  [("period", VInt 1); ("event", VStr "SHOT"); ("seconds_elapsed", VInt 65);
   ("p1_name", VStr "Auston Matthews"); ("p1_ID", VInt 8479318);
   ("p2_name", VStr "Craig Anderson"); ("p2_ID", VInt 8467950);
   ("p3_name", VNull); ("p3_ID", VNull); ("xC", VFlt (64 # 1)); ("yC", VFlt (-12 # 1))].

(** The same play, which the structured feed has as a goal. *)
Definition sample_json_goal : Row :=
  [("period", VInt 1); ("event", VStr "GOAL"); ("seconds_elapsed", VInt 65);
   ("p1_name", VStr "Auston Matthews"); ("p1_ID", VInt 8479318);
   ("p2_name", VStr "Craig Anderson"); ("p2_ID", VInt 8467950);
   ("p3_name", VNull); ("p3_ID", VNull); ("xC", VFlt (64 # 1)); ("yC", VFlt (-12 # 1))].

Definition sample_html : DataFrame := df_of_records [sample_html_shot] sample_html_columns.
Definition sample_json : DataFrame := df_of_records [sample_json_shot] sample_json_columns.
Definition sample_json_other : DataFrame := df_of_records [sample_json_goal] sample_json_columns.


Definition sample_game_id : string := "2016020001".
Definition sample_date : val := VStr "2016-10-12".


(** The table of an outcome that has one. *)
Definition the_table (o : outcome (option DataFrame)) : DataFrame :=
  match o with
  | Ret (Some df) => df
  | _ => df_nil []
  end.

(** A player directory that lists one name twice, the second time without
    an id, and a roster with a skater of that name and a goalie the
    directory does not have. *)
Definition sample_directory : list (string * gmap string val) :=
  [("ID8479318", <["fullName" := VStr "Auston Matthews"]>
                   (<["lastName" := VStr "Matthews"]> (<["id" := VInt 8479318]> ∅)));
   ("ID0", <["fullName" := VStr "Auston Matthews"]> (<["lastName" := VStr "Matthews"]> ∅))].

Definition sample_roster : gmap string (list (list val)) :=
  <["Home" := [[VInt 34; VStr "C"; VStr "AUSTON MATTHEWS"; VBool false]]]>
    (<["Away" := [[VInt 41; VStr "G"; VStr "CRAIG ANDERSON"; VBool false]]]> ∅).

(** The directory with the name once, and what the resolver makes of the
    roster with it. *)
Definition sample_json_players : gmap string game_scraper.JsonPlayer :=
  <["AUSTON MATTHEWS" := game_scraper.mkJsonPlayer (VInt 8479318) "MATTHEWS"]> ∅.

Definition sample_players_home : gmap string game_scraper.Player :=
  <["AUSTON MATTHEWS" := game_scraper.mkPlayer (VInt 8479318) (VInt 34) (VStr "MATTHEWS")]> ∅.

Definition sample_players : gmap string (gmap string game_scraper.Player) :=
  <["Away" := ∅]> (<["Home" := sample_players_home]> ∅).

(** A roster with a skater that no directory has. *)
Definition sample_roster_unknown : gmap string (list (list val)) :=
  <["Home" := [[VInt 91; VStr "C"; VStr "JOHN TAVARES"; VBool false]]]> (<["Away" := []]> ∅).






(** An entry of the player directory whose full name and last name are strings. *)
Definition named_entry (pj : gmap string val) : Prop :=
  (∃ s, pj !! "fullName" = Some (VStr s)) ∧ (∃ s, pj !! "lastName" = Some (VStr s)).

(** A computation that changes nothing but [players_missing_ids], to
    which it only appends. *)
Definition appends_missing {A} (m : game_scraper.M A) : Prop :=
  ∀ d, ∃ new, (m d).2 = with_missing d new.

(** * Verification *)

(** ** Strings *)

Lemma append_nil (t : string) : "" +:+ t = t.
Proof. reflexivity. Qed.

Lemma append_String (a : ascii) (s t : string) : String a s +:+ t = String a (s +:+ t).
Proof. reflexivity. Qed.

Lemma str_prefix_spec p s : str_prefix p s = true ↔ ∃ b, s = p +:+ b.
Proof.
  revert s. induction p as [|a p IH]; intros s; simpl.
  - split; [eauto|done].
  - destruct s as [|b s].
    + split; [done|]. intros [? ?]; discriminate.
    + destruct (decide (a = b)) as [->|Hne].
      * rewrite IH. split; intros [t Ht]; exists t; rewrite append_String in *; congruence.
      * split; [done|]. intros [t Ht]. rewrite append_String in Ht. congruence.
Qed.

Lemma str_in_spec k s : str_in k s = true ↔ occurs_in k s.
Proof.
  unfold occurs_in. induction s as [|c s IH].
  - simpl. rewrite orb_false_r, str_prefix_spec. split.
    + intros [b Hb]. exists "", b. done.
    + intros (a & b & Hab). destruct a; [rewrite append_nil in Hab; eauto|discriminate].
  - cbn [str_in]. rewrite orb_true_iff, IH, str_prefix_spec. split.
    + intros [[b Hb]|(a & b & Hab)].
      * exists "", b. done.
      * exists (String c a), b. rewrite append_String. by rewrite Hab.
    + intros (a & b & Hab). destruct a as [|c' a].
      * left. rewrite append_nil in Hab. eauto.
      * right. exists a, b. rewrite append_String in Hab. congruence.
Qed.

Lemma str_in_false k s : str_in k s = false ↔ ¬ occurs_in k s.
Proof. rewrite <- str_in_spec. destruct (str_in k s); naive_solver. Qed.

(** ** The classifier of the auxiliary feed *)

Lemma head_filter_first {A} (P : A → Prop) `{∀ x, Decision (P x)} (pre post : list A) (x : A) :
  (∀ y, y ∈ pre → ¬ P y) → P x → head (filter P (pre ++ x :: post)) = Some x.
Proof.
  intros Hpre Hx. induction pre as [|y pre IH]; simpl.
  - rewrite filter_cons_True by done. done.
  - rewrite filter_cons_False by (apply Hpre; left). apply IH.
    intros z Hz. apply Hpre. by right.
Qed.



Lemma head_fmap {A B} (f : A → B) (l : list A) : head (f <$> l) = f <$> head l.
Proof. by destruct l. Qed.

Lemma item_Ret {A} (l : list A) (i : nat) (x : A) : item l i = Ret x ↔ l !! i = Some x.
Proof. unfold item. destruct (l !! i); naive_solver. Qed.

Lemma bind_Ret {A B} (m : outcome A) (f : A → outcome B) (b : B) :
  m ≫= f = Ret b ↔ ∃ a, m = Ret a ∧ f a = Ret b.
Proof.
  destruct m as [a|e]; simpl; split.
  - eauto.
  - by intros (? & [= <-] & ?).
  - done.
  - by intros (? & ? & ?).
Qed.


(** ** Rows and frames *)

Lemma assoc_mk_row cols f c :
  assoc c (mk_row cols f) = if decide (c ∈ cols) then Some (f c) else None.
Proof.
  unfold mk_row. induction cols as [|k cols IH]; [done|].
  rewrite fmap_cons. cbn [assoc]. destruct (decide (k = c)) as [->|Hne].
  - rewrite decide_True by left. done.
  - rewrite IH. destruct (decide (c ∈ cols)) as [Hin|Hin].
    + rewrite decide_True by (by right). done.
    + rewrite decide_False; [done|]. intros [?|?]%elem_of_cons; congruence.
Qed.

Lemma get_mk_row cols f c :
  get (mk_row cols f) c = if decide (c ∈ cols) then f c else VNull.
Proof. unfold get. rewrite assoc_mk_row. by destruct (decide _). Qed.

Lemma assoc_app r1 r2 c :
  assoc c (r1 ++ r2) = match assoc c r1 with Some v => Some v | None => assoc c r2 end.
Proof.
  induction r1 as [|[k v] r1 IH]; [done|].
  cbn [app assoc]. by destruct (decide (k = c)).
Qed.

Lemma zip_fmap_mk_row cols f : zip cols (f <$> cols) = mk_row cols f.
Proof. unfold mk_row. induction cols as [|c cols IH]; [done|]. cbn. by rewrite IH. Qed.

Lemma fst_mk_row cols f : (mk_row cols f).*1 = cols.
Proof.
  unfold mk_row. rewrite <- list_fmap_compose.
  induction cols as [|c cols IH]; [done|]. cbn. by rewrite IH.
Qed.

Lemma mk_row_ext cols f g : (∀ c, c ∈ cols → f c = g c) → mk_row cols f = mk_row cols g.
Proof.
  intros Hfg. unfold mk_row. apply list_fmap_ext. intros i c Hc.
  rewrite Hfg; [done|]. by eapply list_elem_of_lookup_2.
Qed.

Lemma has_cols_spec cs df : has_cols cs df = true ↔ ∀ c, c ∈ cs → c ∈ columns df.
Proof.
  unfold has_cols. rewrite forallb_forall. split.
  - intros Hall c Hc. eapply bool_decide_eq_true_1. apply Hall. by apply list_elem_of_In.
  - intros Hall c Hc. apply bool_decide_eq_true_2, Hall. by apply list_elem_of_In.
Qed.

Lemma columns_df_set c v df c' :
  c' ∈ columns (df_set c v df) ↔ c' = c ∨ c' ∈ columns df.
Proof.
  unfold df_set. cbn. destruct (decide (c ∈ columns df)).
  - naive_solver.
  - rewrite elem_of_app, list_elem_of_singleton. naive_solver.
Qed.

(** The rows of [df[c] = v], cell by cell. *)
Lemma rows_df_set c v df :
  rows (df_set c v df) =
  (λ r, (r.1, mk_row (columns (df_set c v df))
                (λ c', if decide (c' = c) then v else get r.2 c'))) <$> rows df.
Proof. done. Qed.

Lemma mapO_Ret {A B} (f : A → outcome B) (l : list A) (l' : list B) :
  mapO f l = Ret l' ↔ Forall2 (λ x y, f x = Ret y) l l'.
Proof.
  revert l'. induction l as [|x l IH]; intros l'; simpl.
  - split; [intros [= <-]; constructor|by intros ->%Forall2_nil_inv_l].
  - rewrite bind_Ret. split.
    + intros (y & Hy & (ys & Hys & [= <-])%bind_Ret). constructor; [done|by apply IH].
    + intros (y & ys & Hy & Hys & ->)%Forall2_cons_inv_l. exists y. split; [done|].
      apply bind_Ret. exists ys. split; [by apply IH|done].
Qed.

Lemma columns_stamp st df c :
  c ∈ columns (stamp st df) ↔ c ∈ st.*1 ∨ c ∈ columns df.
Proof.
  induction st as [|[k v] st IH]; cbn [stamp foldr fmap list_fmap].
  - rewrite elem_of_nil. tauto.
  - fold (stamp st df). rewrite columns_df_set, IH, elem_of_cons. cbn. tauto.
Qed.

Lemma stamp_spec st df :
  ∃ R : Row → Row,
    rows (stamp st df) = (λ r, (r.1, R r.2)) <$> rows df ∧
    ∀ r c, view (stamp st df) (R r) c = stamped_cell st (columns df) r c.
Proof.
  induction st as [|[k v] st (R & HR & Hview)]; cbn [stamp foldr].
  - exists id. split; [|done].
    rewrite <- (list_fmap_id (rows df)) at 1. apply list_fmap_ext. by intros i [??] ?.
  - fold (stamp st df). cbn [fst snd].
    exists (λ r, mk_row (columns (df_set k v (stamp st df)))
                   (λ c', if decide (c' = k) then v else get (R r) c')).
    split.
    + rewrite rows_df_set, HR, <- list_fmap_compose. done.
    + intros r c. unfold view at 1. rewrite get_mk_row.
      unfold stamped_cell. cbn [assoc]. destruct (decide (k = c)) as [->|Hne].
      * destruct (decide (c ∈ columns (df_set c v (stamp st df)))) as [_|Hn].
        -- by destruct (decide (c = c)).
        -- destruct Hn. apply columns_df_set. by left.
      * destruct (decide (c = k)) as [->|_]; [done|].
        specialize (Hview r c). unfold view, stamped_cell in Hview.
        destruct (decide (c ∈ columns (df_set k v (stamp st df)))) as [Hin|Hin].
        -- apply columns_df_set in Hin as [?|Hin]; [done|].
           by rewrite decide_True in Hview.
        -- rewrite decide_False in Hview; [done|].
           intros ?. apply Hin, columns_df_set. by right.
Qed.

(** The rows of a stamped frame brought to the columns [cs]. *)
Lemma rows_reindex_stamp cs st df :
  rows (df_reindex_columns cs (stamp st df)) =
  (λ r, (r.1, mk_row cs (stamped_cell st (columns df) r.2))) <$> rows df.
Proof.
  destruct (stamp_spec st df) as (R & HR & Hview).
  unfold df_reindex_columns. cbn [rows]. rewrite HR, <- list_fmap_compose.
  apply list_fmap_ext. intros i [l r] _. cbn. f_equal.
  apply mk_row_ext. intros c _. apply Hview.
Qed.

Lemma try_or_none_Some {A B} (body : outcome A) (rest : A → outcome (option B)) (b : B) :
  game_scraper.try_or_none body rest = Ret (Some b) ↔ ∃ a, body = Ret a ∧ rest a = Ret (Some b).
Proof.
  unfold game_scraper.try_or_none. destruct body as [a|e]; split.
  - eauto.
  - by intros (? & [= <-] & ?).
  - done.
  - by intros (? & ? & ?).
Qed.

Lemma df_drop_duplicates_Ret cs df g :
  df_drop_duplicates cs df = Ret g ↔
  has_cols cs df = true ∧ g = mkDF (columns df) (dedup_first (cells cs) [] (rows df)).
Proof.
  unfold df_drop_duplicates. destruct (has_cols cs df); split.
  - by intros [= <-].
  - by intros [_ ->].
  - done.
  - by intros [? _].
Qed.

Lemma df_drop_Ret labels df g :
  df_drop labels df = Ret g ↔
  has_cols labels df = true ∧
  g = mkDF (filter (λ c, c ∉ labels) (columns df))
           ((λ r, (r.1, mk_row (filter (λ c, c ∉ labels) (columns df)) (get r.2))) <$> rows df).
Proof.
  unfold df_drop. destruct (has_cols labels df); split.
  - by intros [= <-].
  - by intros [_ ->].
  - done.
  - by intros [? _].
Qed.

Section merge_inversion.
Context `{Externals}.

(** What a successful structured merge went through. *)
Lemma combine_html_json_pbp_Some json_df html_df game_id date out :
  game_scraper.combine_html_json_pbp json_df html_df game_id date = Ret (Some out) →
  ∃ json_d html' merged,
    df_drop ["p1_name"; "p2_name"; "p2_ID"; "p3_name"; "p3_ID"] json_df = Ret json_d ∧
    df_astype_int "Period" html_df = Ret html' ∧
    (if bool_decide (nrows html' = nrows json_d) then
       ∃ json_s, df_select ["period"; "event"; "seconds_elapsed"; "xC"; "yC"] json_d = Ret json_s ∧
                 merged = df_merge_index html' json_s
     else df_merge_on html' json_d ["Period"; "Event"; "Seconds_Elapsed"; "p1_ID"]
            ["period"; "event"; "seconds_elapsed"; "p1_ID"] = Ret merged) ∧
    has_cols game_scraper.dup_subset merged = true ∧
    out = df_reindex_columns game_scraper.pbp_columns
            (stamp (html_json_stamps game_id date)
               (mkDF (columns merged) (dedup_first (cells game_scraper.dup_subset) [] (rows merged)))).
Proof.
  unfold game_scraper.combine_html_json_pbp.
  intros (json_d & Hdrop & Hrest)%bind_Ret.
  apply try_or_none_Some in Hrest as (g & Hbody & [= <-]).
  apply bind_Ret in Hbody as (html' & Hint & Hbody).
  apply bind_Ret in Hbody as (merged & Hmerge & Hdd).
  apply df_drop_duplicates_Ret in Hdd as [Hcols ->].
  exists json_d, html', merged. split_and!; try done.
  destruct (bool_decide (nrows html' = nrows json_d)).
  - apply bind_Ret in Hmerge as (json_s & Hsel & [= <-]). eauto.
  - by apply bind_Ret in Hmerge as (_ & _ & Hmerge).
Qed.

(** What a successful auxiliary merge went through. *)
Lemma combine_espn_html_pbp_Some html_df espn_df game_id date away home out :
  game_scraper.combine_espn_html_pbp html_df espn_df game_id date away home = Ret (Some out) →
  ∃ g,
    match espn_df with
    | Some espn_df =>
        ∃ espn' merged,
          df_astype_int "period" espn_df = Ret espn' ∧
          df_merge_on html_df espn' ["Period"; "Seconds_Elapsed"; "Event"]
            ["period"; "time_elapsed"; "event"] = Ret merged ∧
          has_cols game_scraper.dup_subset merged = true ∧
          df_drop ["period"; "time_elapsed"; "event"]
            (mkDF (columns merged) (dedup_first (cells game_scraper.dup_subset) [] (rows merged)))
          = Ret g
    | None => g = html_df
    end ∧
    out = df_reindex_columns game_scraper.pbp_columns
            (stamp (espn_html_stamps game_id date away home) g).
Proof.
  unfold game_scraper.combine_espn_html_pbp.
  intros (g & Hbody & [= <-])%try_or_none_Some.
  exists g. split; [|done].
  destruct espn_df as [espn_df|]; [|by injection Hbody].
  apply bind_Ret in Hbody as (espn' & Hint & Hbody).
  apply bind_Ret in Hbody as (merged & Hmerge & Hbody).
  apply bind_Ret in Hbody as (dd & Hdd & Hdrop).
  apply df_drop_duplicates_Ret in Hdd as [Hcols ->].
  eauto 10.
Qed.

End merge_inversion.

(** ** The output of both merges *)

(** A closed decidable fact, by evaluation. *)
Ltac decide_closed := apply (bool_decide_unpack _); vm_compute; exact I.


Lemma length_list_ascii_of_string s : length (list_ascii_of_string s) = String.length s.
Proof. induction s as [|a s IH]; [done|]. cbn. by rewrite IH. Qed.


Lemma list_ascii_of_string_app s1 s2 :
  list_ascii_of_string (s1 +:+ s2) = list_ascii_of_string s1 ++ list_ascii_of_string s2.
Proof. induction s1 as [|a s1 IH]; [done|]. rewrite append_String. cbn. by rewrite IH. Qed.

Lemma length_append s1 s2 : String.length (s1 +:+ s2) = (String.length s1 + String.length s2)%nat.
Proof. induction s1 as [|a s1 IH]; [done|]. rewrite append_String. cbn. by rewrite IH. Qed.



(** The last characters of [c0 +:+ sfx] are [sfx]. *)
Lemma str_last_append c0 sfx : str_last (String.length sfx) (c0 +:+ sfx) = sfx.
Proof.
  unfold str_last. rewrite length_append, list_ascii_of_string_app.
  replace (String.length c0 + String.length sfx - String.length sfx)%nat
    with (length (list_ascii_of_string c0)) by (rewrite length_list_ascii_of_string; lia).
  rewrite drop_app_length. apply string_of_list_ascii_of_string.
Qed.

Lemma df_merge_on_Ret left right lon ron m :
  df_merge_on left right lon ron = Ret m ↔
  has_cols lon left = true ∧ has_cols ron right = true ∧ length lon = length ron ∧
  forallb (λ k, key_kinds_ok left right k.1 k.2) (zip lon ron) = true ∧
  m = mkDF (merge_columns (merge_lcols left lon ron) (merge_rcols left right lon ron))
        (range_index (snd <$>
           left_join (merge_row (merge_lcols left lon ron) (merge_rcols left right lon ron))
                     (λ l r, bool_decide (cells lon l = cells ron r))
                     (rows left) (rows right))).
Proof.
  unfold df_merge_on.
  destruct (has_cols lon left), (has_cols ron right); cbn [andb negb];
    try (split; [done|by intros (? & ? & _)]).
  destruct (decide (length lon = length ron)) as [Hlen|Hlen].
  - rewrite (bool_decide_eq_true_2 _ Hlen). cbn [negb].
    destruct (forallb _ _); cbn [negb].
    + split; [by intros [= <-]|by intros (_ & _ & _ & _ & ->)].
    + split; [done|by intros (_ & _ & _ & ? & _)].
  - rewrite (bool_decide_eq_false_2 _ Hlen). cbn [negb].
    split; [done|by intros (_ & _ & ? & _)].
Qed.

Lemma df_select_Ret labels df g :
  df_select labels df = Ret g ↔
  has_cols labels df = true ∧
  g = mkDF labels ((λ r, (r.1, mk_row labels (get r.2))) <$> rows df).
Proof.
  unfold df_select. destruct (has_cols labels df); split.
  - by intros [= <-].
  - by intros [_ ->].
  - done.
  - by intros [? _].
Qed.

Section astype.
Context `{Externals}.

Lemma df_astype_int_Ret c df df' :
  df_astype_int c df = Ret df' →
  c ∈ columns df ∧ columns df' = columns df ∧
  Forall2 (λ r r', ∃ v, astype_int (get r.2 c) = Ret v ∧
                        r' = (r.1, mk_row (columns df) (λ c', if decide (c' = c) then v else get r.2 c')))
          (rows df) (rows df').
Proof.
  unfold df_astype_int. destruct (decide (c ∈ columns df)) as [Hc|Hc].
  - rewrite (bool_decide_eq_true_2 _ Hc).
    intros (rs & Hrs%mapO_Ret & [= <-])%bind_Ret. split_and!; [done..|].
    cbn [rows]. eapply Forall2_impl; [exact Hrs|].
    intros r r' (v & Hv & [= <-])%bind_Ret. eauto.
  - by rewrite (bool_decide_eq_false_2 _ Hc).
Qed.

End astype.

Lemma elem_of_suffix_cols sfx others cols c :
  c ∈ suffix_cols sfx others cols → c ∈ cols ∨ ∃ c0, c = c0 +:+ sfx.
Proof.
  unfold suffix_cols. intros (c0 & -> & Hc0)%list_elem_of_fmap.
  destruct (decide (c0 ∈ others)); eauto.
Qed.

Lemma elem_of_merge_columns lcols rcols c :
  c ∈ merge_columns lcols rcols →
  c ∈ lcols ∨ c ∈ rcols ∨ (∃ c0, c = c0 +:+ "_x") ∨ (∃ c0, c = c0 +:+ "_y").
Proof.
  unfold merge_columns. intros [Hc|Hc]%elem_of_app; apply elem_of_suffix_cols in Hc; tauto.
Qed.

Lemma merge_lcols_sub left lon ron c : c ∈ merge_lcols left lon ron → c ∈ columns left.
Proof.
  unfold merge_lcols. destruct (bool_decide _); [|done]. by intros [_ ?]%list_elem_of_filter.
Qed.

Lemma merge_rcols_sub left right lon ron c :
  c ∈ merge_rcols left right lon ron → c ∈ columns right.
Proof.
  unfold merge_rcols. destruct (bool_decide _); [done|]. by intros [_ ?]%list_elem_of_filter.
Qed.

(** No label of [pbp_columns] ends in a suffix of [pd.merge]. *)
Lemma pbp_columns_unsuffixed c c0 :
  c ∈ game_scraper.pbp_columns → c ≠ c0 +:+ "_x" ∧ c ≠ c0 +:+ "_y".
Proof.
  intros Hc.
  assert (Forall (λ c, str_last 2 c ≠ "_x" ∧ str_last 2 c ≠ "_y") game_scraper.pbp_columns)
    as Hall by decide_closed.
  rewrite Forall_forall in Hall. destruct (Hall c Hc) as [Hx Hy].
  split; intros ->.
  - apply Hx. apply (str_last_append c0 "_x").
  - apply Hy. apply (str_last_append c0 "_y").
Qed.

Lemma assoc_None c (st : Row) : assoc c st = None ↔ c ∉ st.*1.
Proof.
  induction st as [|[k v] st IH]; cbn [assoc fmap list_fmap].
  - split; [intros _ ?%elem_of_nil; done|done].
  - cbn. destruct (decide (k = c)) as [->|Hne].
    + split; [done|]. intros []. by left.
    + rewrite IH. rewrite not_elem_of_cons. naive_solver.
Qed.

Lemma dedup_first_NoDup {A K} `{EqDecision K} (key : A → K) (seen : list K) (l : list A) :
  NoDup (key <$> dedup_first key seen l) ∧
  ∀ k, k ∈ key <$> dedup_first key seen l → k ∉ seen.
Proof.
  revert seen. induction l as [|x l IH]; intros seen; cbn [dedup_first].
  - split; [constructor|]. by intros k ?%elem_of_nil.
  - destruct (decide (key x ∈ seen)) as [Hin|Hin]; [apply IH|].
    destruct (IH (key x :: seen)) as [Hnd Hseen]. rewrite fmap_cons. split.
    + constructor; [|done]. intros Hk%Hseen. apply Hk. by left.
    + intros k [->|Hk]%elem_of_cons; [done|].
      apply Hseen in Hk. intros ?. apply Hk. by right.
Qed.

Lemma dedup_first_sub {A K} `{EqDecision K} (key : A → K) (seen : list K) (l : list A) x :
  x ∈ dedup_first key seen l → x ∈ l.
Proof.
  revert seen. induction l as [|y l IH]; intros seen; cbn [dedup_first]; [done|].
  destruct (decide (key y ∈ seen)).
  - intros ?%IH. by right.
  - intros [->|?%IH]%elem_of_cons; [by left|by right].
Qed.

Lemma dedup_first_seen {A K} `{EqDecision K} (key : A → K) (seen : list K) (l rest : list A) :
  (∀ x, x ∈ l → key x ∈ seen) → dedup_first key seen (l ++ rest) = dedup_first key seen rest.
Proof.
  induction l as [|x l IH]; intros Hl; [done|]. cbn [app dedup_first].
  rewrite decide_True by (apply Hl; left). apply IH. intros y Hy. apply Hl. by right.
Qed.

(** A run of elements with the same key: the first one stays if the key is new. *)
Lemma dedup_first_block {A K} `{EqDecision K} (key : A → K) (seen : list K) (x : A)
    (l rest : list A) (k : K) :
  key x = k → (∀ y, y ∈ l → key y = k) →
  dedup_first key seen (x :: l ++ rest) =
  if decide (k ∈ seen) then dedup_first key seen rest
  else x :: dedup_first key (k :: seen) rest.
Proof.
  intros Hx Hl. cbn [dedup_first]. rewrite Hx. destruct (decide (k ∈ seen)) as [Hk|Hk].
  - apply dedup_first_seen. intros y Hy. by rewrite (Hl y Hy).
  - f_equal. apply dedup_first_seen. intros y Hy. rewrite (Hl y Hy). by left.
Qed.

(** Dropping duplicates after a left join, when the key of a joined row
    is the key of its left row: the left rows that are first with their
    key, each joined to its first match. *)
Lemma dedup_left_join {K} `{EqDecision K} (mk : Row → option Row → Row)
    (matches : Z * Row → Z * Row → bool) (key keyL : Z * Row → K)
    (lrows rrows : list (Z * Row)) (seen : list K) :
  (∀ l y, key (l.1, mk l.2 y) = keyL l) →
  dedup_first key seen (left_join mk matches lrows rrows) =
  (λ l, (l.1, mk l.2 (snd <$> head (filter (λ r, matches l r = true) rrows))))
    <$> dedup_first keyL seen lrows.
Proof.
  intros Hkey. unfold left_join. revert seen.
  induction lrows as [|l lrows IH]; intros seen; [done|].
  rewrite bind_cons. cbn [dedup_first].
  destruct (filter (λ r, matches l r = true) rrows) as [|m ms] eqn:E.
  - cbn [app dedup_first]. rewrite Hkey.
    destruct (decide (keyL l ∈ seen)); [apply IH|].
    rewrite fmap_cons. f_equal; [by rewrite E|apply IH].
  - rewrite fmap_cons. cbn [app].
    rewrite (dedup_first_block key seen _ _ _ (keyL l)).
    + destruct (decide (keyL l ∈ seen)); [apply IH|].
      rewrite fmap_cons. f_equal; [by rewrite E|apply IH].
    + apply Hkey.
    + intros y (r & -> & _)%list_elem_of_fmap. apply Hkey.
Qed.

(** Dropping duplicates looks at the rows only, not at their labels. *)
Lemma dedup_first_snd {K} `{EqDecision K} (key : Z * Row → K) (keyR : Row → K)
    (seen : list K) (l1 l2 : list (Z * Row)) :
  (∀ r, key r = keyR r.2) → l1.*2 = l2.*2 →
  (dedup_first key seen l1).*2 = (dedup_first key seen l2).*2.
Proof.
  intros Hkey. revert seen l2. induction l1 as [|x l1 IH]; intros seen [|y l2] Heq; try done.
  injection Heq as Hxy Heq. cbn [dedup_first].
  rewrite (Hkey x), (Hkey y), Hxy.
  destruct (decide (keyR y.2 ∈ seen)); [by apply IH|].
  rewrite !fmap_cons, Hxy. f_equal. by apply IH.
Qed.

Lemma snd_range_index rs : (range_index rs).*2 = rs.
Proof.
  unfold range_index. rewrite fmap_imap.
  rewrite (imap_ext _ (const id)); [|done]. rewrite imap_const. apply list_fmap_id.
Qed.

Lemma suffix_cols_id sfx others cols :
  (∀ c, c ∈ cols → c ∉ others) → suffix_cols sfx others cols = cols.
Proof.
  intros Hd. unfold suffix_cols. rewrite <- (list_fmap_id cols) at 2.
  apply list_fmap_ext. intros i c Hc. rewrite decide_False; [done|].
  eapply Hd, list_elem_of_lookup_2, Hc.
Qed.

(** The joined row when no label is on both sides. *)
Lemma get_merge_row lcols rcols l y c :
  (∀ c, c ∈ lcols → c ∉ rcols) →
  get (merge_row lcols rcols l y) c =
  if decide (c ∈ lcols) then get l c
  else if decide (c ∈ rcols) then from_option (λ j, get j c) VNull y
  else VNull.
Proof.
  intros Hd. unfold merge_row, join_rows.
  rewrite !suffix_cols_id by (intros c' ? ?; by eapply Hd).
  rewrite !zip_fmap_mk_row. unfold get at 1. rewrite assoc_app, !assoc_mk_row.
  destruct (decide (c ∈ lcols)); [done|].
  destruct (decide (c ∈ rcols)); [|done]. by destruct y.
Qed.

Lemma merge_columns_disjoint lcols rcols :
  (∀ c, c ∈ lcols → c ∉ rcols) → merge_columns lcols rcols = lcols ++ rcols.
Proof.
  intros Hd. unfold merge_columns.
  by rewrite !suffix_cols_id by (intros c' ? ?; by eapply Hd).
Qed.

Section merged_output.
Context `{Externals}.


Lemma view_cells g (r : Z * Row) cs :
  has_cols cs g = true → view g r.2 <$> cs = cells cs r.
Proof.
  intros Hcs. rewrite has_cols_spec in Hcs. unfold cells. apply list_fmap_ext. intros i c Hc.
  unfold view. rewrite decide_True; [done|]. eapply Hcs, list_elem_of_lookup_2, Hc.
Qed.

(** The frame that is stamped: where its columns come from, and, after a
    join, that no two of its rows agree on [dup_subset]. *)
Lemma merge_on_path_frame p html_df game_id date out :
  merge_on_path p html_df game_id date = Ret (Some out) →
  ∃ g, out = df_reindex_columns game_scraper.pbp_columns (stamp (path_stamps p game_id date) g) ∧
       (∀ c, c ∈ columns g →
             c ∈ columns html_df ∨ c ∈ path_columns p ∨
             (∃ c0, c = c0 +:+ "_x") ∨ (∃ c0, c = c0 +:+ "_y")) ∧
       (joins p → has_cols game_scraper.dup_subset g = true ∧
                  NoDup ((λ r, view g r.2 <$> game_scraper.dup_subset) <$> rows g)).
Proof.
  destruct p as [json_df|espn_df away home]; cbn [merge_on_path path_stamps path_columns joins].
  - intros (json_d & html' & merged & Hdrop & Hint & Hmerge & Hcols & ->)%combine_html_json_pbp_Some.
    eexists. split; [done|]. cbn [columns rows].
    apply df_astype_int_Ret in Hint as (_ & Hcolh & _).
    apply df_drop_Ret in Hdrop as [_ ->].
    split.
    + intros c Hc. destruct (bool_decide _).
      * destruct Hmerge as (json_s & [Hsel ->]%df_select_Ret & ->).
        cbn [df_merge_index columns] in Hc.
        apply elem_of_merge_columns in Hc as [Hc|[Hc|Hc]]; [left; congruence| |tauto].
        right; left. rewrite has_cols_spec in Hsel. by apply (Hsel c Hc).
      * apply df_merge_on_Ret in Hmerge as (_ & _ & _ & _ & ->). cbn [columns] in Hc.
        apply elem_of_merge_columns in Hc as [Hc|[Hc|Hc]]; [| |tauto].
        -- left. apply merge_lcols_sub in Hc. congruence.
        -- right; left. by apply merge_rcols_sub in Hc.
    + intros _. split; [done|].
      erewrite list_fmap_ext; [apply (dedup_first_NoDup (cells game_scraper.dup_subset) [])|].
      intros i r _. by apply (view_cells (mkDF _ _)).
  - intros (g & Hg & ->)%combine_espn_html_pbp_Some.
    exists g. split; [done|]. destruct espn_df as [espn_df|]; [|subst g; tauto].
    destruct Hg as (espn' & merged & Hint & Hmerge & Hcols & Hdrop).
    apply df_astype_int_Ret in Hint as (_ & Hcole & _).
    apply df_merge_on_Ret in Hmerge as (_ & _ & _ & _ & Hm).
    apply df_drop_Ret in Hdrop as [_ ->]. cbn [columns rows].
    assert (∀ c, c ∈ game_scraper.dup_subset →
                 c ∈ filter (λ c, c ∉ ["period"; "time_elapsed"; "event"]) (columns merged)) as Hsub.
    { intros c Hc. apply list_elem_of_filter. split.
      - assert (Forall (λ c, c ∉ ["period"; "time_elapsed"; "event"]) game_scraper.dup_subset)
          as Hall by decide_closed.
        rewrite Forall_forall in Hall. by apply Hall.
      - rewrite has_cols_spec in Hcols. by apply Hcols. }
    split; [|intros _; split].
    + intros c [_ Hc]%list_elem_of_filter. rewrite Hm in Hc. cbn [columns] in Hc.
      apply elem_of_merge_columns in Hc as [Hc|[Hc|Hc]]; [| |tauto].
      * left. by apply merge_lcols_sub in Hc.
      * right; left. apply merge_rcols_sub in Hc. cbn. congruence.
    + by apply has_cols_spec.
    + rewrite <- list_fmap_compose.
      erewrite list_fmap_ext; [apply (dedup_first_NoDup (cells game_scraper.dup_subset) [])|].
      intros i r _. unfold compose, cells. cbn [snd]. apply list_fmap_ext. intros j c Hc.
      unfold view. cbn [columns]. apply list_elem_of_lookup_2, Hsub in Hc.
      rewrite decide_True by done. rewrite get_mk_row. by rewrite decide_True.
Qed.

(** The cells of a returned row at labels that are not stamped. *)
Lemma out_row_cell p game_id date g (r : Z * Row) c :
  c ∈ game_scraper.pbp_columns → c ∉ (path_stamps p game_id date).*1 →
  get (mk_row game_scraper.pbp_columns (stamped_cell (path_stamps p game_id date) (columns g) r.2)) c
  = view g r.2 c.
Proof.
  intros Hc Hst%assoc_None. rewrite get_mk_row, decide_True by done.
  unfold stamped_cell. by rewrite Hst.
Qed.

(** C4: on every merge path, a returned table has exactly the columns
    [pbp_columns], every row has a cell for each of them, and a column
    that neither table has and that is not stamped holds nulls. *)
Theorem C4_fixed_column_set (p : merge_path) (html_df : DataFrame) (game_id : string)
    (date : val) (out : DataFrame)
    (Hout : merge_on_path p html_df game_id date = Ret (Some out)) :
  columns out = game_scraper.pbp_columns ∧
  (∀ r, r ∈ rows out → r.2.*1 = game_scraper.pbp_columns) ∧
  (∀ c, c ∈ game_scraper.pbp_columns →
        c ∉ columns html_df → c ∉ path_columns p → c ∉ (path_stamps p game_id date).*1 →
        ∀ r, r ∈ rows out → get r.2 c = VNull).
Proof.
  apply merge_on_path_frame in Hout as (g & -> & Horigin & _).
  split_and!; [done| |].
  - rewrite rows_reindex_stamp. intros r (r0 & -> & _)%list_elem_of_fmap.
    apply fst_mk_row.
  - intros c Hc Hh Hp Hst r. rewrite rows_reindex_stamp.
    intros (r0 & -> & _)%list_elem_of_fmap. cbn [snd].
    rewrite out_row_cell by done. unfold view.
    destruct (decide (c ∈ columns g)) as [Hg|Hg]; [|done].
    destruct (pbp_columns_unsuffixed c "" Hc) as [_ _].
    apply Horigin in Hg as [?|[?|[[c0 ->]|[c0 ->]]]]; [done|done| |].
    + by destruct (pbp_columns_unsuffixed _ c0 Hc) as [? _].
    + by destruct (pbp_columns_unsuffixed _ c0 Hc) as [_ ?].
Qed.


(** A cell of a joined row, read through the labels of the joined frame. *)
Lemma joined_cell (lc rc hc rcs : list string) l y c :
  (∀ c, c ∈ lc → c ∉ rc) →
  (c ∈ lc ↔ c ∈ hc) → (c ∉ hc → (c ∈ rc ↔ c ∈ rcs)) →
  (if decide (c ∈ merge_columns lc rc) then get (merge_row lc rc l y) c else VNull) =
  if decide (c ∈ hc) then get l c
  else if decide (c ∈ rcs) then from_option (λ j, get j c) VNull y
  else VNull.
Proof.
  intros Hd Hl Hr. rewrite merge_columns_disjoint, get_merge_row by done.
  destruct (decide (c ∈ hc)) as [Hh|Hh].
  - apply Hl in Hh. rewrite decide_True by (apply elem_of_app; by left).
    by rewrite decide_True.
  - rewrite (decide_False (P := c ∈ lc)) by (by rewrite Hl).
    destruct (decide (c ∈ rcs)) as [Hc|Hc].
    + apply Hr in Hc; [|done]. rewrite decide_True by (apply elem_of_app; by right).
      by rewrite decide_True.
    + rewrite (decide_False (P := c ∈ rc)) by (by rewrite Hr).
      by destruct (decide _).
Qed.

Lemma cells_merge_row (cs lc rc : list string) (l : Z * Row) y z :
  (∀ c, c ∈ lc → c ∉ rc) → (∀ c, c ∈ cs → c ∈ lc) →
  cells cs (z, merge_row lc rc l.2 y) = cells cs l.
Proof.
  intros Hd Hcs. unfold cells. cbn [snd]. apply list_fmap_ext. intros i c Hc.
  rewrite get_merge_row by done. rewrite decide_True; [done|].
  eapply Hcs, list_elem_of_lookup_2, Hc.
Qed.

Lemma nrows_df_drop labels df g : df_drop labels df = Ret g → nrows g = nrows df.
Proof. intros [_ ->]%df_drop_Ret. unfold nrows. cbn. by rewrite length_fmap. Qed.

Lemma nrows_df_astype_int c df df' : df_astype_int c df = Ret df' → nrows df' = nrows df.
Proof. intros (_ & _ & Hrows)%df_astype_int_Ret. symmetry. by eapply Forall2_length. Qed.

Lemma snd_fmap_row (f : Row → Row) (l : list (Z * Row)) :
  ((λ r, (r.1, f r.2)) <$> l).*2 = f <$> l.*2.
Proof. by rewrite <- !list_fmap_compose. Qed.

Lemma rows_out_snd st g :
  (rows (df_reindex_columns game_scraper.pbp_columns (stamp st g))).*2 =
  (λ r, mk_row game_scraper.pbp_columns (stamped_cell st (columns g) r)) <$> (rows g).*2.
Proof. rewrite rows_reindex_stamp, <- !list_fmap_compose. done. Qed.

Lemma rows_out_fst st g :
  (rows (df_reindex_columns game_scraper.pbp_columns (stamp st g))).*1 = (rows g).*1.
Proof. rewrite rows_reindex_stamp, <- !list_fmap_compose. done. Qed.

(** The rows of a key join without their labels, duplicates dropped. *)
Lemma dedup_merge_on_snd left right lon ron m cs :
  df_merge_on left right lon ron = Ret m →
  rows left ≠ [] →
  (∀ c, c ∈ columns left → c ∉ merge_rcols left right lon ron) →
  (∀ c, c ∈ cs → c ∈ columns left) →
  columns m = merge_columns (columns left) (merge_rcols left right lon ron) ∧
  (dedup_first (cells cs) [] (rows m)).*2 =
  (λ l, merge_row (columns left) (merge_rcols left right lon ron) l.2
          (snd <$> head (filter (λ r, bool_decide (cells lon l = cells ron r) = true) (rows right))))
    <$> dedup_first (cells cs) [] (rows left).
Proof.
  intros (_ & _ & _ & _ & ->)%df_merge_on_Ret Hne Hd Hcs. cbn [columns rows].
  assert (merge_lcols left lon ron = columns left) as ->.
  { unfold merge_lcols. by rewrite bool_decide_eq_false_2. }
  split; [done|].
  rewrite (dedup_first_snd (cells cs) (λ r, get r <$> cs) [] _
             (left_join (merge_row (columns left) (merge_rcols left right lon ron))
                (λ l r, bool_decide (cells lon l = cells ron r)) (rows left) (rows right)));
    [|done|apply snd_range_index].
  rewrite (dedup_left_join _ _ (cells cs) (cells cs)).
  - by rewrite <- list_fmap_compose.
  - intros l y. by apply cells_merge_row.
Qed.

Lemma pbp_columns_not_aux c :
  c ∈ game_scraper.pbp_columns → c ∉ ["period"; "time_elapsed"; "event"].
Proof. revert c. apply Forall_forall. decide_closed. Qed.

(** The rows a join returns, in terms of the rows of the textual report:
    one for each row that is the first with its cells at [dup_subset],
    joined to its first partner. *)
Lemma merge_on_path_rows p html_df game_id date out :
  has_cols game_scraper.dup_subset html_df = true →
  (∀ c, c ∈ columns html_df → c ∈ path_columns p → c ∈ path_same_keys p) →
  joins p →
  merge_on_path p html_df game_id date = Ret (Some out) →
  ∃ html' right,
    path_left p html_df = Ret html' ∧ path_right p html' = Ret right ∧
    columns html' = columns html_df ∧
    (rows out).*2 =
      (λ l, merged_row (path_stamps p game_id date) (columns html_df) (columns right) l.2
              (partner p html' right l))
        <$> dedup_first (cells game_scraper.dup_subset) [] (rows html') ∧
    (positional p html' = true →
     (rows out).*1 = (dedup_first (cells game_scraper.dup_subset) [] (rows html')).*1).
Proof.
  intros Hdup Hdisj Hjoin Hout. rewrite has_cols_spec in Hdup.
  destruct p as [json_df|[espn_df|] away home]; [| |done];
    cbn [merge_on_path path_stamps path_columns path_left path_right path_same_keys from_option]
      in *.
  - (* the structured merge *)
    apply combine_html_json_pbp_Some
      in Hout as (json_d & html' & merged & Hdrop & Hint & Hmerge & Hcm & ->).
    pose proof (nrows_df_drop _ _ _ Hdrop) as Hn.
    pose proof Hint as (_ & Hcolh & _)%df_astype_int_Ret.
    assert (∀ c, c ∈ columns json_d → c ∈ path_columns (Structured json_df)) as Hsubj.
    { apply df_drop_Ret in Hdrop as [_ ->]. done. }
    rewrite Hdrop. cbn [mbind outcome_bind].
    rewrite rows_out_snd, rows_out_fst. cbn [columns rows].
    unfold partner, path_matches, positional. rewrite <- Hn.
    destruct (decide (nrows html' = nrows json_d)) as [Hpos|Hpos];
      [rewrite (bool_decide_eq_true_2 _ Hpos) in Hmerge
      |rewrite (bool_decide_eq_false_2 _ Hpos) in Hmerge].
    + destruct Hmerge as (json_s & Hsel & ->). exists html', json_s.
      rewrite !(bool_decide_eq_true_2 _ Hpos).
      split_and!; [done..| |].
      * apply df_select_Ret in Hsel as [Hsel ->]. rewrite has_cols_spec in Hsel.
        cbn [df_merge_index columns rows].
        assert (∀ c, c ∈ columns html' →
                     c ∉ ["period"; "event"; "seconds_elapsed"; "xC"; "yC"]) as Hd.
        { intros c Hc Hc5. rewrite Hcolh in Hc.
          specialize (Hdisj c Hc (Hsubj c (Hsel c Hc5))).
          apply list_elem_of_singleton in Hdisj as ->. revert Hc5. decide_closed. }
        rewrite (dedup_left_join _ _ _ (cells game_scraper.dup_subset)).
        -- rewrite <- !list_fmap_compose. apply list_fmap_ext. intros i l _.
           unfold compose. cbn [snd]. apply mk_row_ext. intros c _.
           unfold stamped_cell. destruct (assoc c _); [done|].
           apply joined_cell; [done|by rewrite Hcolh|done].
        -- intros l y. apply cells_merge_row; [done|].
           intros c Hc. rewrite Hcolh. by apply Hdup.
      * intros _. apply df_select_Ret in Hsel as [Hsel ->]. rewrite has_cols_spec in Hsel.
        cbn [df_merge_index columns rows].
        assert (∀ c, c ∈ columns html' →
                     c ∉ ["period"; "event"; "seconds_elapsed"; "xC"; "yC"]) as Hd.
        { intros c Hc Hc5. rewrite Hcolh in Hc.
          specialize (Hdisj c Hc (Hsubj c (Hsel c Hc5))).
          apply list_elem_of_singleton in Hdisj as ->. revert Hc5. decide_closed. }
        rewrite (dedup_left_join _ _ _ (cells game_scraper.dup_subset)).
        -- by rewrite <- !list_fmap_compose.
        -- intros l y. apply cells_merge_row; [done|].
           intros c Hc. rewrite Hcolh. by apply Hdup.
    + exists html', json_d. rewrite !(bool_decide_eq_false_2 _ Hpos).
      split_and!; [done..| |done].
      destruct (decide (rows html' = [])) as [Hnil|Hne].
      { apply df_merge_on_Ret in Hmerge as (_ & _ & _ & _ & ->). cbn [rows].
        unfold left_join. by rewrite Hnil. }
      pose proof Hmerge as (Hlon & _)%df_merge_on_Ret. rewrite has_cols_spec in Hlon.
      assert (∀ c, c ∈ merge_rcols html' json_d
                     ["Period"; "Event"; "Seconds_Elapsed"; "p1_ID"]
                     ["period"; "event"; "seconds_elapsed"; "p1_ID"] ↔
                   c ∈ columns json_d ∧ c ≠ "p1_ID") as Hrc.
      { intros c. unfold merge_rcols. rewrite bool_decide_eq_false_2 by done.
        rewrite list_elem_of_filter. change (same_keys _ _) with ["p1_ID"].
        rewrite list_elem_of_singleton. tauto. }
      eapply dedup_merge_on_snd in Hmerge as [Hcolm Hrows]; [|done| |].
      * rewrite Hrows, <- !list_fmap_compose. apply list_fmap_ext. intros i l _.
        unfold compose. cbn [snd]. apply mk_row_ext. intros c _.
        unfold stamped_cell. destruct (assoc c _); [done|]. rewrite Hcolm.
        apply joined_cell.
        -- intros c' Hc' [Hj Hne']%Hrc. rewrite Hcolh in Hc'.
           specialize (Hdisj c' Hc' (Hsubj c' Hj)). by apply list_elem_of_singleton in Hdisj.
        -- by rewrite Hcolh.
        -- intros Hh. rewrite Hrc. split; [tauto|]. intros Hj. split; [done|].
           intros ->. apply Hh. rewrite <- Hcolh. apply Hlon. decide_closed.
      * intros c' Hc' [Hj Hne']%Hrc. rewrite Hcolh in Hc'.
        specialize (Hdisj c' Hc' (Hsubj c' Hj)). by apply list_elem_of_singleton in Hdisj.
      * intros c Hc. rewrite Hcolh. by apply Hdup.
  - (* the auxiliary merge, the auxiliary table being there *)
    apply combine_espn_html_pbp_Some in Hout as (g & Hg & ->).
    destruct Hg as (espn' & merged & Hint & Hmerge & Hcm & Hdrop).
    pose proof Hint as (_ & Hcole & _)%df_astype_int_Ret.
    exists html_df, espn'. split_and!; [done..| |done].
    apply df_drop_Ret in Hdrop as [_ ->].
    rewrite rows_out_snd. cbn [columns rows]. unfold partner, path_matches.
    destruct (decide (rows html_df = [])) as [Hnil|Hne].
    { apply df_merge_on_Ret in Hmerge as (_ & _ & _ & _ & ->). cbn [rows].
      unfold left_join. by rewrite Hnil. }
    assert (∀ c, c ∈ merge_rcols html_df espn' ["Period"; "Seconds_Elapsed"; "Event"]
                   ["period"; "time_elapsed"; "event"] ↔ c ∈ columns espn') as Hrc.
    { intros c. unfold merge_rcols. rewrite bool_decide_eq_false_2 by done.
      rewrite list_elem_of_filter. change (same_keys _ _) with (@nil string).
      rewrite elem_of_nil. tauto. }
    assert (∀ c, c ∈ columns html_df →
                 c ∉ merge_rcols html_df espn' ["Period"; "Seconds_Elapsed"; "Event"]
                       ["period"; "time_elapsed"; "event"]) as Hd.
    { intros c Hc Hr%Hrc. rewrite Hcole in Hr. specialize (Hdisj c Hc Hr).
      by apply elem_of_nil in Hdisj. }
    eapply dedup_merge_on_snd in Hmerge as [Hcolm Hrows]; [|done..].
    rewrite (snd_fmap_row (λ r, mk_row _ (get r))), Hrows, <- !list_fmap_compose.
    apply list_fmap_ext. intros i l _. unfold compose. cbn [snd].
    apply mk_row_ext. intros c Hc. unfold stamped_cell. destruct (assoc c _); [done|].
    rewrite get_mk_row, Hcolm.
    rewrite <- (joined_cell (columns html_df)
                 (merge_rcols html_df espn' ["Period"; "Seconds_Elapsed"; "Event"]
                    ["period"; "time_elapsed"; "event"])
                 (columns html_df) (columns espn') l.2
                 (snd <$> head (filter _ (rows espn'))) c); [|done|done|intros _; apply Hrc].
    destruct (decide (c ∈ filter _ _)) as [Hf|Hf];
      destruct (decide (c ∈ merge_columns _ _)) as [Hin|Hin]; try done.
    + by apply list_elem_of_filter in Hf as [_ ?].
    + destruct Hf. apply list_elem_of_filter.
      split; [by apply pbp_columns_not_aux|done].
Qed.



Lemma head_filter_label (rs : list (Z * Row)) (i : nat) (r : Z * Row) :
  range_labelled rs → rs !! i = Some r →
  head (filter (λ r', bool_decide (Z.of_nat i = r'.1) = true) rs) = Some r.
Proof.
  intros Hlab Hi. rewrite <- (take_drop_middle rs i r Hi).
  apply (head_filter_first (λ r', bool_decide (Z.of_nat i = r'.1) = true)).
  - intros y (j & Hj)%list_elem_of_lookup_1 Hy%bool_decide_eq_true_1.
    apply lookup_take_Some in Hj as [Hj Hlt].
    apply Hlab in Hj. lia.
  - apply bool_decide_eq_true_2. symmetry. by apply Hlab.
Qed.

Lemma range_labelled_fmap (f : Z * Row → Z * Row) rs :
  (∀ r, (f r).1 = r.1) → range_labelled rs → range_labelled (f <$> rs).
Proof.
  intros Hf Hlab i r. rewrite list_lookup_fmap.
  destruct (rs !! i) as [r0|] eqn:E; [|done]. intros [= <-]. rewrite Hf. by apply Hlab.
Qed.

Lemma range_labelled_range_index rs : range_labelled (range_index rs).
Proof.
  intros i r. unfold range_index. rewrite list_lookup_imap.
  destruct (rs !! i); [|done]. by intros [= <-].
Qed.

(** C3, as the code has it: when both tables have as many rows and carry
    the default index, row [i] of the returned table comes from row [i] of
    both: [xC] and [yC] from the structured table, and every column of the
    textual report from the textual report ([Period] converted to an
    integer, [Game_Id] and [Date] stamped); so the event type is the one of
    the textual report. *)
Theorem C3_positional_join (json_df html_df : DataFrame) (game_id : string) (date : val)
    (out : DataFrame)
    (Hn : nrows html_df = nrows json_df)
    (Hhi : range_labelled (rows html_df)) (Hji : range_labelled (rows json_df))
    (Hcols : has_cols game_scraper.dup_subset html_df = true)
    (Hdisj : ∀ c, c ∈ columns html_df → c ∈ path_columns (Structured json_df) → c ∈ ["p1_ID"])
    (Hout : game_scraper.combine_html_json_pbp json_df html_df game_id date = Ret (Some out)) :
  ∀ r, r ∈ rows out →
    ∃ i h j, rows html_df !! i = Some h ∧ rows json_df !! i = Some j ∧ r.1 = Z.of_nat i ∧
      get r.2 "xC" = get j.2 "xC" ∧ get r.2 "yC" = get j.2 "yC" ∧
      astype_int (get h.2 "Period") = Ret (get r.2 "Period") ∧
      get r.2 "Event" = get h.2 "Event" ∧
      (∀ c, c ∈ game_scraper.pbp_columns → c ∈ columns html_df →
            c ∉ ["Game_Id"; "Date"; "Period"] → get r.2 c = get h.2 c).
Proof.
  destruct (merge_on_path_rows (Structured json_df) _ _ _ _ Hcols Hdisj I Hout)
    as (html' & right & Hl & Hr & Hcolh & Hrows & Hfst).
  cbn [path_left path_right path_stamps] in *.
  pose proof (nrows_df_astype_int _ _ _ Hl) as Hnh.
  apply bind_Ret in Hr as (json_d & Hdrop & Hr).
  pose proof (nrows_df_drop _ _ _ Hdrop) as Hnd.
  assert (nrows html' = nrows json_d) as Hpos by congruence.
  rewrite (bool_decide_eq_true_2 _ Hpos) in Hr.
  assert (positional (Structured json_df) html' = true) as Hp.
  { apply bool_decide_eq_true_2. congruence. }
  specialize (Hfst Hp).
  apply df_select_Ret in Hr as [Hsel ->]. rewrite has_cols_spec in Hsel.
  apply df_drop_Ret in Hdrop as [_ ->]. cbn [columns rows] in *.
  apply df_astype_int_Ret in Hl as (_ & _ & Hconv).
  set (cols_d := filter (λ c, c ∉ ["p1_name"; "p2_name"; "p2_ID"; "p3_name"; "p3_ID"])
                   (columns json_df)) in *.
  intros r (k & Hk)%list_elem_of_lookup_1.
  assert ((rows out).*2 !! k = Some r.2) as Hk2 by (by rewrite list_lookup_fmap, Hk).
  assert ((rows out).*1 !! k = Some r.1) as Hk1 by (by rewrite list_lookup_fmap, Hk).
  rewrite Hrows, list_lookup_fmap in Hk2. rewrite Hfst, list_lookup_fmap in Hk1.
  destruct (dedup_first _ _ _ !! k) as [l|] eqn:Hkept; [|done].
  injection Hk2 as Hr2. injection Hk1 as Hr1.
  apply list_elem_of_lookup_2, dedup_first_sub, list_elem_of_lookup_1 in Hkept as [i Hi].
  destruct (Forall2_lookup_r _ _ _ _ _ Hconv Hi) as (h & Hh & v & Hv & ->).
  pose proof (Hhi _ _ Hh) as Hlab.
  destruct (rows json_df !! i) as [j|] eqn:Hj.
  2:{ apply lookup_ge_None in Hj. apply lookup_lt_Some in Hh. unfold nrows in Hn. lia. }
  match type of Hr2 with
  | context [partner ?a ?b ?c ?d] =>
      assert (partner a b c d
              = Some (mk_row ["period"; "event"; "seconds_elapsed"; "xC"; "yC"]
                        (get (mk_row cols_d (get j.2))))) as Hpart
  end.
  { unfold partner, path_matches. rewrite Hp. cbn [fst rows]. rewrite Hlab.
    rewrite (head_filter_label _ i
               (j.1, mk_row ["period"; "event"; "seconds_elapsed"; "xC"; "yC"]
                       (get (mk_row cols_d (get j.2)))));
      [done
      |do 2 (apply range_labelled_fmap; [done|]); done
      |by rewrite !list_lookup_fmap, Hj]. }
  rewrite Hpart in Hr2. clear Hpart.
  assert (∀ c, c ∈ ["period"; "event"; "seconds_elapsed"; "xC"; "yC"] →
               c ∉ columns html_df) as Hd.
  { intros c Hc5 Hc. specialize (Hdisj c Hc). 
    assert (c ∈ path_columns (Structured json_df)) as Hcj by (by apply Hsel).
    specialize (Hdisj Hcj). apply list_elem_of_singleton in Hdisj as ->.
    revert Hc5. decide_closed. }
  assert (∀ c, c ∈ ["xC"; "yC"] → get r.2 c = get j.2 c) as Hxy.
  { intros c Hc. rewrite <- Hr2. unfold merged_row. rewrite get_mk_row.
    assert (c ∈ ["period"; "event"; "seconds_elapsed"; "xC"; "yC"]) as Hc5.
    { revert c Hc. apply Forall_forall. decide_closed. }
    rewrite decide_True by (clear Hc5; revert c Hc; apply Forall_forall; decide_closed).
    replace (assoc c (html_json_stamps game_id date)) with (@None val).
    2:{ symmetry. apply assoc_None. cbn. clear Hc5. revert c Hc.
        apply Forall_forall. decide_closed. }
    rewrite decide_False by (by apply Hd). rewrite decide_True by done.
    cbn [from_option]. rewrite !get_mk_row, decide_True by done.
    by rewrite decide_True by (by apply Hsel). }
  assert (∀ c, c ∈ game_scraper.pbp_columns → c ∈ columns html_df → c ∉ ["Game_Id"; "Date"] →
               get r.2 c = if decide (c = "Period") then v else get h.2 c) as Hcell.
  { intros c Hc Hh' Hst. rewrite <- Hr2. unfold merged_row. rewrite get_mk_row.
    rewrite decide_True by done.
    replace (assoc c (html_json_stamps game_id date)) with (@None val).
    2:{ symmetry. apply assoc_None. cbn. set_solver. }
    rewrite decide_True by done. cbn [snd]. rewrite get_mk_row. by rewrite decide_True. }
  rewrite has_cols_spec in Hcols.
  exists i, h, j. split_and!; [done|done|by rewrite <- Hr1|..].
  - apply Hxy. by left.
  - apply Hxy. right. by left.
  - rewrite Hv. f_equal. rewrite Hcell; [done|decide_closed|apply Hcols; decide_closed|decide_closed].
  - rewrite Hcell; [done|decide_closed|apply Hcols; decide_closed|decide_closed].
  - intros c Hc Hh' Hn3. rewrite Hcell; [|done|done|set_solver].
    rewrite decide_False; [done|]. set_solver.
Qed.



End merged_output.

(** ** The merges on the sample tables *)

Lemma sample_html_disjoint (html_df : DataFrame) (p : merge_path) :
  Forall (λ c, c ∈ path_columns p → c ∈ path_same_keys p) (columns html_df) →
  ∀ c, c ∈ columns html_df → c ∈ path_columns p → c ∈ path_same_keys p.
Proof. intros Hall c Hc. by apply (proj1 (Forall_forall _ _) Hall). Qed.





Lemma C3_witness :
  nrows sample_html = nrows sample_json ∧
  game_scraper.combine_html_json_pbp (H := sample_externals) sample_json sample_html
    sample_game_id sample_date
  = Ret (Some (the_table (game_scraper.combine_html_json_pbp (H := sample_externals) sample_json
                            sample_html sample_game_id sample_date))) ∧
  ∀ r, r ∈ rows (the_table (game_scraper.combine_html_json_pbp (H := sample_externals)
                              sample_json sample_html sample_game_id sample_date)) →
       ∃ i h j, rows sample_html !! i = Some h ∧ rows sample_json !! i = Some j ∧
                get r.2 "xC" = get j.2 "xC" ∧ get r.2 "Event" = get h.2 "Event".
Proof.
  assert (nrows sample_html = nrows sample_json) as H1 by reflexivity.
  assert (game_scraper.combine_html_json_pbp (H := sample_externals) sample_json sample_html
            sample_game_id sample_date
          = Ret (Some (the_table (game_scraper.combine_html_json_pbp (H := sample_externals)
                                    sample_json sample_html sample_game_id sample_date)))) as H2
    by (vm_compute; reflexivity).
  split_and!; [exact H1|exact H2|].
  intros r Hr.
  destruct (@C3_positional_join sample_externals sample_json sample_html _ _ _ H1
              (range_labelled_range_index _) (range_labelled_range_index _)
              eq_refl
              (sample_html_disjoint sample_html (Structured sample_json)
                 ltac:(decide_closed))
              H2 r Hr)
    as (i & h & j & Hh & Hj & _ & Hx & _ & _ & He & _).
  exists i, h, j. done.
Defined.

(** The counterexample to C3: the structured feed has the play as a goal,
    the textual report as a shot; the merged row is a shot. *)
Lemma C3_counterexample :
  nrows sample_html = nrows sample_json_other ∧
  (λ r, get r.2 "event") <$> rows sample_json_other = [VStr "GOAL"] ∧
  ∃ out, game_scraper.combine_html_json_pbp (H := sample_externals) sample_json_other sample_html
           sample_game_id sample_date = Ret (Some out) ∧
         (λ r, get r.2 "Event") <$> rows out = [VStr "SHOT"].
Proof. split_and!; [done..|]. eexists. split; [vm_compute; reflexivity|done]. Qed.

Lemma C4_witness :
  merge_on_path (H := sample_externals) (Auxiliary None (VStr "TOR") (VStr "OTT"))
    sample_html sample_game_id sample_date
  = Ret (Some (the_table (merge_on_path (H := sample_externals)
                            (Auxiliary None (VStr "TOR") (VStr "OTT"))
                            sample_html sample_game_id sample_date))) ∧
  columns (the_table (merge_on_path (H := sample_externals)
                        (Auxiliary None (VStr "TOR") (VStr "OTT"))
                        sample_html sample_game_id sample_date))
  = game_scraper.pbp_columns.
Proof.
  assert (merge_on_path (H := sample_externals) (Auxiliary None (VStr "TOR") (VStr "OTT"))
            sample_html sample_game_id sample_date
          = Ret (Some (the_table (merge_on_path (H := sample_externals)
                                    (Auxiliary None (VStr "TOR") (VStr "OTT"))
                                    sample_html sample_game_id sample_date)))) as H1
    by (vm_compute; reflexivity).
  split; [exact H1|].
  apply (@C4_fixed_column_set sample_externals _ _ _ _ _ H1).
Defined.



(** ** Player identity resolution *)

Lemma bindM_lift_Ret {A B} (a : A) (f : A → game_scraper.M B) :
  game_scraper.lift (Ret a) ≫= f = f a.
Proof. reflexivity. Qed.

Lemma bindM_mret {A B} (a : A) (f : A → game_scraper.M B) : mret a ≫= f = f a.
Proof. reflexivity. Qed.

Ltac run_lifts := repeat first [rewrite bindM_lift_Ret | rewrite bindM_mret].

(** Read the items of a list that is known. *)
Ltac read_items :=
  repeat match goal with
    | |- context [item ?l ?i] =>
        let v := eval cbn in (l !! i) in
        match v with
        | Some ?x => change (item l i) with (Ret x)
        end
    end.

Section resolver.
Context `{Externals}.

Lemma with_missing_nil d : with_missing d [] = d.
Proof. destruct d. unfold with_missing. cbn. by rewrite app_nil_r. Qed.

Lemma with_missing_app d l1 l2 : with_missing (with_missing d l1) l2 = with_missing d (l1 ++ l2).
Proof. unfold with_missing. cbn. by rewrite <- app_assoc. Qed.

(** One turn of the loop on a well-formed entry. *)
Lemma combine_player_wf json_players game_id players number position name scratch d :
  game_scraper.combine_player json_players game_id players [number; position; VStr name; scratch] d
  = (Ret (match resolve_entry json_players number position name scratch with
          | Some p => <[fix_name name := p]> players
          | None => players
          end),
     with_missing d
       (if recorded json_players [number; position; VStr name; scratch]
        then [(VStr name, game_id)] else [])).
Proof.
  unfold game_scraper.combine_player, resolve_entry, recorded, game_scraper.get_sebastian_aho.
  read_items. rewrite bindM_lift_Ret. cbn [game_scraper.val_fix_name]. rewrite bindM_lift_Ret.
  destruct (json_players !! fix_name name) as [jp|] eqn:Hjp.
  - rewrite (bool_decide_eq_false_2 (Some jp = None)) by done. cbn [andb].
    rewrite with_missing_nil.
    destruct (decide (fix_name name ≠ "SEBASTIAN AHO")).
    + by rewrite !bindM_lift_Ret.
    + cbn [mbind outcome_bind]. rewrite !bindM_lift_Ret. done.
  - rewrite (bool_decide_eq_true_2 (None = None)) by done. cbn [andb].
    run_lifts.
    destruct (truthy scratch); cbn [negb andb orb]; run_lifts.
    + by rewrite with_missing_nil.
    + destruct (bool_decide (position = VStr "G")); cbn [negb]; run_lifts.
      * by rewrite with_missing_nil.
      * done.
Qed.

Lemma bindM_run {A B} (m : game_scraper.M A) (f : A → game_scraper.M B) d a d' :
  m d = (Ret a, d') → (m ≫= f) d = f a d'.
Proof. intros Hm. unfold mbind, game_scraper.M_bind. by rewrite Hm. Qed.

Lemma missing_record_wf game_id number position name scratch :
  missing_record game_id [number; position; VStr name; scratch] = (VStr name, game_id).
Proof. reflexivity. Qed.

(** The loop over the entries of one venue: it returns, appends one
    record for each recorded entry, and every name it files comes from
    the dict it started with or from an entry. *)
Lemma foldM_combine_player json_players game_id l :
  Forall wf_entry l → ∀ players d,
  ∃ players',
    game_scraper.foldM (game_scraper.combine_player json_players game_id) players l d
    = (Ret players',
       with_missing d (missing_record game_id <$> filter (λ e, recorded json_players e = true) l)) ∧
    ∀ n p, players' !! n = Some p →
      players !! n = Some p ∨
      ∃ number position name scratch,
        [number; position; VStr name; scratch] ∈ l ∧ fix_name name = n ∧
        resolve_entry json_players number position name scratch = Some p.
Proof.
  induction 1 as [|e l (number & position & name & scratch & ->) _ IH]; intros players d.
  - exists players. cbn [game_scraper.foldM filter list_filter fmap list_fmap].
    rewrite with_missing_nil. split; [done|]. by left.
  - cbn [game_scraper.foldM]. erewrite bindM_run by apply combine_player_wf.
    edestruct IH as (players' & -> & Hprov). exists players'. split.
    + rewrite with_missing_app. f_equal. f_equal.
      destruct (recorded json_players [number; position; VStr name; scratch]) eqn:Hrec.
      * rewrite filter_cons_True by done. by rewrite fmap_cons.
      * rewrite filter_cons_False by (by rewrite Hrec). done.
    + intros n p [Hin|(nu & po & na & sc & Hin & Hn & Hres)]%Hprov.
      * destruct (resolve_entry json_players number position name scratch) as [q|] eqn:Hq;
          [|by left].
        destruct (decide (fix_name name = n)) as [<-|Hne].
        -- rewrite lookup_insert_eq in Hin. injection Hin as <-.
           right. exists number, position, name, scratch. split_and!; [by left|done|done].
        -- rewrite lookup_insert_ne in Hin by done. by left.
      * right. exists nu, po, na, sc. split_and!; [by right|done|done].
Qed.

(** The whole resolver on a roster whose entries are well formed. *)
Lemma combine_players_lists_wf json_players roster game_id home away d :
  roster !! "Home" = Some home → roster !! "Away" = Some away →
  Forall wf_entry (home ++ away) →
  ∃ ph pa,
    game_scraper.combine_players_lists json_players roster game_id d
    = (Ret (<["Away" := pa]> (<["Home" := ph]> ∅)),
       with_missing d
         (missing_record game_id <$> filter (λ e, recorded json_players e = true) (home ++ away))) ∧
    ∀ l m, (l = home ∧ m = ph) ∨ (l = away ∧ m = pa) →
      ∀ n p, m !! n = Some p →
        ∃ number position name scratch,
          [number; position; VStr name; scratch] ∈ l ∧ fix_name name = n ∧
          resolve_entry json_players number position name scratch = Some p.
Proof.
  intros Hh Ha [Hwh Hwa]%Forall_app.
  unfold game_scraper.combine_players_lists, game_scraper.combine_venue. rewrite Hh, Ha.
  destruct (foldM_combine_player json_players game_id home Hwh ∅ d) as (ph & Hph & Hprovh).
  erewrite bindM_run by exact Hph.
  edestruct (foldM_combine_player json_players game_id away Hwa ∅) as (pa & Hpa & Hprova).
  erewrite bindM_run by exact Hpa.
  exists ph, pa. split.
  - unfold mret, game_scraper.M_ret. f_equal. rewrite with_missing_app.
    by rewrite filter_app, fmap_app.
  - intros l m [[-> ->]|[-> ->]] n p Hn.
    + by destruct (Hprovh n p Hn) as [?%lookup_empty_Some|?].
    + by destruct (Hprova n p Hn) as [?%lookup_empty_Some|?].
Qed.

(** *** Goalie validation *)

Lemma fresh_appends_refl d : fresh_appends d d.
Proof.
  exists []. rewrite with_missing_nil. split_and!; [done|constructor|].
  by intros k ?%elem_of_nil.
Qed.

Lemma fresh_appends_trans d1 d2 d3 :
  fresh_appends d1 d2 → fresh_appends d2 d3 → fresh_appends d1 d3.
Proof.
  intros (n1 & -> & Hnd1 & Hf1) (n2 & -> & Hnd2 & Hf2).
  exists (n1 ++ n2). rewrite with_missing_app. split_and!; [done| |].
  - apply NoDup_app. split_and!; [done| |done].
    intros k Hk1 Hk2. apply (Hf2 k Hk2). cbn. apply elem_of_app. by right.
  - intros k [Hk|Hk]%elem_of_app; [by apply Hf1|].
    intros Hin. apply (Hf2 k Hk). cbn. apply elem_of_app. by left.
Qed.

Lemma fresh_appends_one d k :
  k ∉ game_scraper.players_missing_ids d → fresh_appends d (with_missing d [k]).
Proof.
  intros Hk. exists [k]. split_and!; [done|apply NoDup_singleton|].
  by intros k' ->%list_elem_of_singleton.
Qed.

Lemma check_goalie_side_fresh row goalie goalie_id d :
  fresh_appends d (game_scraper.check_goalie_side row goalie goalie_id d).2.
Proof.
  unfold game_scraper.check_goalie_side.
  destruct (game_scraper.row_item row goalie) as [g|e] eqn:Hg; [|apply fresh_appends_refl].
  run_lifts.
  destruct (decide (g ≠ VStr "")); run_lifts; [|apply fresh_appends_refl].
  destruct (game_scraper.row_item row goalie_id) as [i|e] eqn:Hi; [|apply fresh_appends_refl].
  run_lifts.
  destruct (bool_decide (i = VStr "NA")); [|apply fresh_appends_refl].
  destruct (game_scraper.row_item row "Game_Id") as [gid|e] eqn:Hgid;
    [|apply fresh_appends_refl].
  run_lifts.
  unfold game_scraper.read_players_missing_ids, mbind, game_scraper.M_bind.
  destruct (decide ((g, gid) ∉ game_scraper.players_missing_ids d)) as [Hk|Hk];
    [|apply fresh_appends_refl].
  by apply fresh_appends_one.
Qed.

Lemma check_goalie_fresh row d : fresh_appends d (game_scraper.check_goalie row d).2.
Proof.
  unfold game_scraper.check_goalie, mbind, game_scraper.M_bind.
  pose proof (check_goalie_side_fresh row "Away_Goalie" "Away_Goalie_Id" d) as H1.
  destruct (game_scraper.check_goalie_side row "Away_Goalie" "Away_Goalie_Id" d) as [[[]|e] d1];
    [|done].
  eapply fresh_appends_trans; [exact H1|apply check_goalie_side_fresh].
Qed.

Lemma forM_check_goalie_fresh rs d :
  fresh_appends d (game_scraper.forM game_scraper.check_goalie rs d).2.
Proof.
  revert d. induction rs as [|r rs IH]; intros d; [apply fresh_appends_refl|].
  cbn [game_scraper.forM]. unfold mbind, game_scraper.M_bind.
  pose proof (check_goalie_fresh r d) as H1.
  destruct (game_scraper.check_goalie r d) as [[[]|e] d1]; [|done].
  eapply fresh_appends_trans; [exact H1|apply IH].
Qed.

(** *** The player directory *)

Lemma get_players_json_step_Ret players pj players' :
  game_scraper.get_players_json_step players pj = Ret players' →
  ∃ n last, entry_name pj = Some n ∧
    players' = <[n := game_scraper.mkJsonPlayer (default (VStr "NA") (pj !! "id")) last]> players.
Proof.
  unfold game_scraper.get_players_json_step, entry_name, game_scraper.json_item.
  destruct (pj !! "fullName") as [[| | | |s]|]; try done. cbn.
  destruct (pj !! "lastName") as [[| | | |l]|]; try done. cbn.
  destruct (pj !! "id") as [i|]; intros [= <-]; exists (fix_name (upper s)), (upper l);
    by rewrite insert_insert_eq.
Qed.

Lemma foldO_app {A B} (f : A → B → outcome A) a l1 l2 :
  game_scraper.foldO f a (l1 ++ l2) = game_scraper.foldO f a l1 ≫= λ a', game_scraper.foldO f a' l2.
Proof.
  revert a. induction l1 as [|x l1 IH]; intros a; [done|].
  cbn [app game_scraper.foldO]. destruct (f a x) as [a'|e]; [|done]. cbn. apply IH.
Qed.

Lemma foldO_players_other players l players' n :
  game_scraper.foldO game_scraper.get_players_json_step players l = Ret players' →
  (∀ pj, pj ∈ l → entry_name pj ≠ Some n) → players' !! n = players !! n.
Proof.
  revert players. induction l as [|pj l IH]; intros players; cbn [game_scraper.foldO].
  - by intros [= <-].
  - intros (p1 & (n1 & last & Hn1 & ->)%get_players_json_step_Ret & Hrest)%bind_Ret Hl.
    rewrite (IH _ Hrest) by (intros ? ?; apply Hl; by right).
    apply lookup_insert_ne. intros ->. by apply (Hl pj); [left|].
Qed.

(** In the directory the last entry of a name decides its id. *)
Lemma get_players_json_last pre k pj post m n :
  game_scraper.get_players_json (pre ++ (k, pj) :: post) = Ret m →
  entry_name pj = Some n → (∀ e, e ∈ post → entry_name e.2 ≠ Some n) →
  game_scraper.js_id <$> m !! n = Some (default (VStr "NA") (pj !! "id")).
Proof.
  unfold game_scraper.get_players_json. rewrite fmap_app, fmap_cons, foldO_app. cbn [snd].
  intros (m1 & _ & Hm)%bind_Ret Hn Hpost. cbn [game_scraper.foldO] in Hm.
  apply bind_Ret in Hm as (m2 & (n' & last & Hn' & ->)%get_players_json_step_Ret & Hm).
  rewrite (foldO_players_other _ _ _ n Hm).
  - assert (n' = n) as -> by congruence. by rewrite lookup_insert_eq.
  - intros pj' (e & -> & He)%list_elem_of_fmap. by apply Hpost.
Qed.

(** C5, as the code has it: for a roster entry whose normalised name the
    directory does not have, the resolver leaves the mapping and the
    diagnostics as they are when the entry is a scratch or a goalie
    (goalies are left to [check_goalie]); otherwise it appends the record
    (name, game id) to [players_missing_ids] and files the name with the id
    ['NA'], the number of the entry and an empty last name. *)
Theorem C5_unresolved_roster_entry (json_players : gmap string game_scraper.JsonPlayer)
    (game_id : val) (players : gmap string game_scraper.Player)
    (number position : val) (name : string) (scratch : val) (d : game_scraper.Diag)
    (Hmiss : json_players !! fix_name name = None) :
  game_scraper.combine_player json_players game_id players [number; position; VStr name; scratch] d
  = if truthy scratch || bool_decide (position = VStr "G")
    then (Ret players, d)
    else (Ret (<[fix_name name := game_scraper.mkPlayer (VStr "NA") number (VStr "")]> players),
          with_missing d [(VStr name, game_id)]).
Proof.
  rewrite combine_player_wf. unfold resolve_entry, recorded. rewrite Hmiss.
  rewrite (bool_decide_eq_true_2 (None = None)) by done. cbn [andb].
  destruct (truthy scratch); cbn [orb negb andb]; [by rewrite with_missing_nil|].
  destruct (bool_decide (position = VStr "G")); cbn [negb]; [by rewrite with_missing_nil|done].
Qed.

(** C8, as the code has it: only [check_goalie] looks before it appends:
    over any rows it appends to [players_missing_ids] keys that were not
    there, each once, and leaves the other lists alone.  The resolver
    appends one record for each roster entry it cannot resolve that is
    neither a scratch nor a goalie, whatever the list holds; and
    [scrape_shifts] appends to [broken_shifts_games] whenever both shift
    sources fail. *)
Theorem C8_diagnostic_appends :
  (∀ rs d, fresh_appends d (game_scraper.forM game_scraper.check_goalie rs d).2) ∧
  (∀ json_players roster game_id home away d,
     roster !! "Home" = Some home → roster !! "Away" = Some away →
     Forall wf_entry (home ++ away) →
     (game_scraper.combine_players_lists json_players roster game_id d).2
     = with_missing d
         (missing_record game_id <$> filter (λ e, recorded json_players e = true) (home ++ away))) ∧
  (∀ game_id date f d,
     (game_scraper.season f < 2010 ∨ game_scraper.json_shifts f = None) →
     game_scraper.html_shifts f = None →
     game_scraper.scrape_shifts game_id date f d
     = (Ret None,
        game_scraper.mkDiag (game_scraper.broken_shifts_games d ++ [(game_id, date)])
          (game_scraper.broken_pbp_games d) (game_scraper.players_missing_ids d)
          (game_scraper.missing_coords d))).
Proof.
  split_and!.
  - apply forM_check_goalie_fresh.
  - intros json_players roster game_id home away d Hh Ha Hwf.
    destruct (combine_players_lists_wf json_players roster game_id home away d Hh Ha Hwf)
      as (ph & pa & -> & _). done.
  - intros game_id date f d Hj Hh. unfold game_scraper.scrape_shifts. rewrite Hh.
    destruct Hj as [Hs| ->].
    + rewrite bool_decide_eq_false_2 by lia. done.
    + by destruct (bool_decide _).
Qed.

(** C9, as the code has it: the resolver files under a name that the
    directory it is given has the id of that directory (for
    ['SEBASTIAN AHO'], one of the two hardcoded ids), never the ['NA'] of
    its [except] branch; in [get_players_json] the last entry of a name
    decides the id of the name, ['NA'] when that entry has none. *)
Theorem C9_resolved_ids :
  (∀ json_players roster game_id home away d out d' venue m n p jp,
     roster !! "Home" = Some home → roster !! "Away" = Some away →
     Forall wf_entry (home ++ away) →
     game_scraper.combine_players_lists json_players roster game_id d = (Ret out, d') →
     out !! venue = Some m → m !! n = Some p → json_players !! n = Some jp →
     game_scraper.pl_id p = game_scraper.js_id jp ∨
     (n = "SEBASTIAN AHO" ∧
      (game_scraper.pl_id p = VInt 8480222 ∨ game_scraper.pl_id p = VInt 8478427))) ∧
  (∀ pre k pj post m n,
     game_scraper.get_players_json (pre ++ (k, pj) :: post) = Ret m →
     entry_name pj = Some n → (∀ e, e ∈ post → entry_name e.2 ≠ Some n) →
     game_scraper.js_id <$> m !! n = Some (default (VStr "NA") (pj !! "id"))).
Proof.
  split; [|apply get_players_json_last].
  intros json_players roster game_id home away d out d' venue m n p jp Hh Ha Hwf Hrun Hv Hn Hjp.
  destruct (combine_players_lists_wf json_players roster game_id home away d Hh Ha Hwf)
    as (ph & pa & Heq & Hprov).
  rewrite Heq in Hrun. injection Hrun as <- _.
  assert (∃ l, (l = home ∧ m = ph) ∨ (l = away ∧ m = pa)) as [l Hl].
  { destruct (decide (venue = "Away")) as [->|Hne].
    - rewrite lookup_insert_eq in Hv. injection Hv as <-. eauto.
    - rewrite lookup_insert_ne in Hv by done.
      destruct (decide (venue = "Home")) as [->|Hne'].
      + rewrite lookup_insert_eq in Hv. injection Hv as <-. eauto.
      + by rewrite lookup_insert_ne, lookup_empty in Hv. }
  destruct (Hprov l m Hl n p Hn) as (nu & po & na & sc & _ & <- & Hres).
  unfold resolve_entry in Hres. rewrite Hjp in Hres. injection Hres as <-. cbn.
  destruct (decide (fix_name na ≠ "SEBASTIAN AHO")) as [Hne|Heq']; [by left|].
  right. split; [by destruct (decide (fix_name na = "SEBASTIAN AHO"))|].
  destruct (decide (po = VStr "D")); tauto.
Qed.

End resolver.

(** *** The resolver on the sample roster *)

Lemma C5_witness :
  (∅ : gmap string game_scraper.JsonPlayer) !! fix_name (Externals := sample_externals) "JOHN TAVARES"
  = None ∧
  game_scraper.combine_player (H := sample_externals) ∅ (VStr sample_game_id) ∅
    [VInt 91; VStr "C"; VStr "JOHN TAVARES"; VBool false] game_scraper.no_diag
  = (Ret (<["JOHN TAVARES" := game_scraper.mkPlayer (VStr "NA") (VInt 91) (VStr "")]> ∅),
     with_missing game_scraper.no_diag [(VStr "JOHN TAVARES", VStr sample_game_id)]).
Proof.
  split; [reflexivity|].
  apply (@C5_unresolved_roster_entry sample_externals ∅ (VStr sample_game_id) ∅
           (VInt 91) (VStr "C") "JOHN TAVARES" (VBool false) game_scraper.no_diag).
  reflexivity.
Defined.

(** The counterexample to C5: a goalie who is not a scratch and whom the
    directory does not have; the resolver neither records nor files him. *)
Lemma C5_counterexample :
  ∃ json_players out d,
    game_scraper.get_players_json (H := sample_externals) sample_directory = Ret json_players ∧
    json_players !! "CRAIG ANDERSON" = None ∧
    sample_roster !! "Away" = Some [[VInt 41; VStr "G"; VStr "CRAIG ANDERSON"; VBool false]] ∧
    game_scraper.combine_players_lists (H := sample_externals) json_players sample_roster
      (VStr sample_game_id) game_scraper.no_diag = (Ret out, d) ∧
    game_scraper.players_missing_ids d = [] ∧
    out !! "Away" = Some ∅.
Proof.
  do 3 eexists. split_and!; [vm_compute; reflexivity|done|done|vm_compute; reflexivity|done|done].
Qed.

Lemma C8_witness :
  sample_roster_unknown !! "Home" = Some [[VInt 91; VStr "C"; VStr "JOHN TAVARES"; VBool false]] ∧
  sample_roster_unknown !! "Away" = Some [] ∧
  Forall wf_entry ([[VInt 91; VStr "C"; VStr "JOHN TAVARES"; VBool false]] ++ []) ∧
  game_scraper.players_missing_ids
    (game_scraper.combine_players_lists (H := sample_externals) ∅ sample_roster_unknown
       (VStr sample_game_id) game_scraper.no_diag).2
  = [(VStr "JOHN TAVARES", VStr sample_game_id)].
Proof.
  assert (Forall wf_entry ([[VInt 91; VStr "C"; VStr "JOHN TAVARES"; VBool false]] ++ [])) as Hwf.
  { repeat constructor. by exists (VInt 91), (VStr "C"), "JOHN TAVARES", (VBool false). }
  split_and!; [reflexivity|reflexivity|exact Hwf|].
  rewrite (proj1 (proj2 (@C8_diagnostic_appends sample_externals)) ∅ sample_roster_unknown
             (VStr sample_game_id) _ _ game_scraper.no_diag eq_refl eq_refl Hwf).
  reflexivity.
Defined.

(** The counterexample to C8: the key is in [players_missing_ids] already
    (the game was scraped before in the run); the resolver appends it again. *)
Lemma C8_counterexample :
  game_scraper.players_missing_ids
    (game_scraper.combine_players_lists (H := sample_externals) ∅ sample_roster_unknown
       (VStr sample_game_id)
       (with_missing game_scraper.no_diag [(VStr "JOHN TAVARES", VStr sample_game_id)])).2
  = [(VStr "JOHN TAVARES", VStr sample_game_id); (VStr "JOHN TAVARES", VStr sample_game_id)].
Proof. vm_compute. reflexivity. Qed.

Lemma C9_witness :
  sample_roster !! "Home" = Some [[VInt 34; VStr "C"; VStr "AUSTON MATTHEWS"; VBool false]] ∧
  sample_roster !! "Away" = Some [[VInt 41; VStr "G"; VStr "CRAIG ANDERSON"; VBool false]] ∧
  game_scraper.combine_players_lists (H := sample_externals) sample_json_players sample_roster
    (VStr sample_game_id) game_scraper.no_diag = (Ret sample_players, game_scraper.no_diag) ∧
  sample_players !! "Home" = Some sample_players_home ∧
  sample_players_home !! "AUSTON MATTHEWS"
  = Some (game_scraper.mkPlayer (VInt 8479318) (VInt 34) (VStr "MATTHEWS")) ∧
  sample_json_players !! "AUSTON MATTHEWS"
  = Some (game_scraper.mkJsonPlayer (VInt 8479318) "MATTHEWS") ∧
  (VInt 8479318 = VInt 8479318 ∨
   ("AUSTON MATTHEWS" = "SEBASTIAN AHO" ∧
    (VInt 8479318 = VInt 8480222 ∨ VInt 8479318 = VInt 8478427))).
Proof.
  assert (Forall wf_entry ([[VInt 34; VStr "C"; VStr "AUSTON MATTHEWS"; VBool false]] ++
                           [[VInt 41; VStr "G"; VStr "CRAIG ANDERSON"; VBool false]])) as Hwf.
  { repeat constructor.
    - by exists (VInt 34), (VStr "C"), "AUSTON MATTHEWS", (VBool false).
    - by exists (VInt 41), (VStr "G"), "CRAIG ANDERSON", (VBool false). }
  assert (game_scraper.combine_players_lists (H := sample_externals) sample_json_players
            sample_roster (VStr sample_game_id) game_scraper.no_diag
          = (Ret sample_players, game_scraper.no_diag)) as Hrun by (vm_compute; reflexivity).
  assert (sample_players !! "Home" = Some sample_players_home) as Hv
    by (vm_compute; reflexivity).
  assert (sample_players_home !! "AUSTON MATTHEWS"
          = Some (game_scraper.mkPlayer (VInt 8479318) (VInt 34) (VStr "MATTHEWS"))) as Hn
    by (vm_compute; reflexivity).
  assert (sample_json_players !! "AUSTON MATTHEWS"
          = Some (game_scraper.mkJsonPlayer (VInt 8479318) "MATTHEWS")) as Hjp
    by (vm_compute; reflexivity).
  split_and!; [reflexivity|reflexivity|exact Hrun|exact Hv|exact Hn|exact Hjp|].
  exact (proj1 (@C9_resolved_ids sample_externals) sample_json_players sample_roster
           (VStr sample_game_id) _ _ game_scraper.no_diag sample_players game_scraper.no_diag
           "Home" sample_players_home "AUSTON MATTHEWS"
           (game_scraper.mkPlayer (VInt 8479318) (VInt 34) (VStr "MATTHEWS"))
           (game_scraper.mkJsonPlayer (VInt 8479318) "MATTHEWS")
           eq_refl eq_refl Hwf Hrun Hv Hn Hjp).
Defined.

(** The counterexample to C9: the directory has the name with an id and,
    later, without one; the name ends up with the id ['NA']. *)
Lemma C9_counterexample :
  (sample_directory !! 0%nat) ≫= (λ e, e.2 !! "id") = Some (VInt 8479318) ∧
  ∃ json_players out d,
    game_scraper.get_players_json (H := sample_externals) sample_directory = Ret json_players ∧
    game_scraper.combine_players_lists (H := sample_externals) json_players sample_roster
      (VStr sample_game_id) game_scraper.no_diag = (Ret out, d) ∧
    (out !! "Home") ≫= (λ m, m !! "AUSTON MATTHEWS")
    = Some (game_scraper.mkPlayer (VStr "NA") (VInt 34) (VStr "MATTHEWS")).
Proof.
  split; [vm_compute; reflexivity|].
  do 3 eexists. split_and!; [vm_compute; reflexivity|vm_compute; reflexivity|].
  vm_compute. reflexivity.
Qed.

(** ** The auxiliary feed that is absent or empty *)

Section auxiliary_feed.
Context `{Externals}.


(** What [parse_espn] returns is the empty table of a feed that is not
    XML, or the table of all the plays of the feed. *)
Lemma parse_espn_Ret espn_xml df :
  espn_pbp.parse_espn espn_xml = Ret df →
  (fromstring (replace_char "019" "-" espn_xml) = None ∧ df = df_nil espn_pbp.columns) ∨
  ∃ tree events plays,
    fromstring (replace_char "019" "-" espn_xml) = Some tree ∧
    el_children tree !! 1%nat = Some events ∧
    Forall2 (λ event play, ∃ t, el_text event = Some t ∧ espn_pbp.parse_event t = Ret play)
      (el_children events) plays ∧
    df = df_of_records (omap id plays) espn_pbp.columns.
Proof.
  unfold espn_pbp.parse_espn. cbv zeta.
  destruct (fromstring _) as [tree|]; [|intros [= <-]; by left].
  intros (events & Hev%item_Ret & (plays & Hplays%mapO_Ret & [= <-])%bind_Ret)%bind_Ret.
  right. exists tree, events, plays. split_and!; [done..| |done].
  eapply Forall2_impl; [exact Hplays|]. intros event play Hp. cbv beta in Hp.
  destruct (el_text event) as [t|]; [eauto|done].
Qed.








End auxiliary_feed.


(** * Further properties of the code *)

(** ** espn_pbp.py *)

Section espn_more.
Context `{Externals}.

Lemma parse_event_Some event r :
  espn_pbp.parse_event event = Ret (Some r) →
  ∃ f0 f1 f3 f4 f8 xC yC t,
    split "~" event !! 0%nat = Some f0 ∧ split "~" event !! 1%nat = Some f1 ∧
    split "~" event !! 3%nat = Some f3 ∧ split "~" event !! 4%nat = Some f4 ∧
    split "~" event !! 8%nat = Some f8 ∧ f4 ≠ "5" ∧
    py_float f0 = Ret xC ∧ py_float f1 = Ret yC ∧ convert_to_seconds f3 = Ret t ∧
    r = [("xC", xC); ("yC", yC); ("time_elapsed", t); ("period", VStr f4);
         ("event", from_option VStr VNull (espn_pbp.event_type (upper f8)))].
Proof.
  unfold espn_pbp.parse_event. cbv zeta.
  intros (f4 & Hf4%item_Ret & Hr)%bind_Ret. destruct (decide (f4 = "5")); [done|].
  apply bind_Ret in Hr as (f0 & Hf0%item_Ret & Hr). apply bind_Ret in Hr as (xC & HxC & Hr).
  apply bind_Ret in Hr as (f1 & Hf1%item_Ret & Hr). apply bind_Ret in Hr as (yC & HyC & Hr).
  apply bind_Ret in Hr as (f3 & Hf3%item_Ret & Hr). apply bind_Ret in Hr as (t & Ht & Hr).
  apply bind_Ret in Hr as (f8 & Hf8%item_Ret & [= <-]).
  exists f0, f1, f3, f4, f8, xC, yC, t. done.
Qed.

Lemma event_type_range d t :
  espn_pbp.event_type d = Some t →
  t ∈ ["GOAL"; "SHOT"; "MISS"; "BLOCK"; "PENL"; "FAC"; "HIT"; "TAKE"; "GIVE"].
Proof.
  unfold espn_pbp.event_type. cbv zeta. rewrite head_fmap.
  destruct (head _) as [[k t']|] eqn:E; [|done]. intros [= <-].
  apply head_Some_elem_of, list_elem_of_filter in E as [_ E].
  change ["GOAL"; "SHOT"; "MISS"; "BLOCK"; "PENL"; "FAC"; "HIT"; "TAKE"; "GIVE"]
    with (espn_pbp.events.*2).
  apply list_elem_of_fmap. by exists (k, t').
Qed.

Lemma elem_of_rows_df_of_records recs cols r :
  r ∈ rows (df_of_records recs cols) → ∃ rec, rec ∈ recs ∧ r.2 = mk_row cols (get rec).
Proof.
  unfold df_of_records, range_index. cbn [rows].
  intros (i & r0 & -> & Hi)%elem_of_lookup_imap.
  apply list_lookup_fmap_Some in Hi as (rec & -> & Hrec).
  exists rec. split; [by eapply list_elem_of_lookup_2|done].
Qed.

(** X1: no play of the shootout is in the table [parse_espn] returns:
    every row has in [period] the fifth field of its play, a string that is
    not ["5"], and in [event] nothing or one of the nine canonical types. *)
Theorem X1_parse_espn_rows (espn_xml : string) (df : DataFrame)
    (Hdf : espn_pbp.parse_espn espn_xml = Ret df) :
  ∀ r, r ∈ rows df →
    (∃ p, get r.2 "period" = VStr p ∧ p ≠ "5") ∧
    (get r.2 "event" = VNull ∨
     ∃ t, get r.2 "event" = VStr t ∧
          t ∈ ["GOAL"; "SHOT"; "MISS"; "BLOCK"; "PENL"; "FAC"; "HIT"; "TAKE"; "GIVE"]).
Proof.
  apply parse_espn_Ret in Hdf as [[_ ->]|(tree & events & plays & _ & _ & Hplays & ->)].
  { by intros r ?%elem_of_nil. }
  intros r (rec & Hrec & ->)%elem_of_rows_df_of_records.
  apply list_elem_of_omap in Hrec as (o & Ho & Heq). cbn in Heq. subst o.
  apply list_elem_of_lookup_1 in Ho as [i Hi].
  destruct (Forall2_lookup_r _ _ _ _ _ Hplays Hi) as (event & _ & t & _ & Hparse).
  apply parse_event_Some in Hparse
    as (f0 & f1 & f3 & f4 & f8 & xC & yC & te & _ & _ & _ & _ & _ & Hf4 & _ & _ & _ & ->).
  rewrite !get_mk_row.
  rewrite !decide_True by decide_closed.
  split; [by exists f4|].
  change (get _ "event") with (from_option VStr VNull (espn_pbp.event_type (upper f8))).
  destruct (espn_pbp.event_type (upper f8)) as [ty|] eqn:E; [|by left].
  right. exists ty. split; [done|]. by eapply event_type_range.
Qed.

Lemma length_omap_le {A B} (f : A → option B) (l : list A) :
  (length (omap f l) ≤ length l)%nat.
Proof. induction l as [|x l IH]; [done|]. cbn. destruct (f x); cbn; lia. Qed.

Lemma mapO_Raise {A B} (f : A → outcome B) (l : list A) (x : A) :
  x ∈ l → (∀ y, f x ≠ Ret y) → ∀ ys, mapO f l ≠ Ret ys.
Proof.
  intros Hx Hf ys Hys%mapO_Ret.
  apply list_elem_of_lookup_1 in Hx as [i Hi].
  destruct (Forall2_lookup_l _ _ _ _ _ Hys Hi) as (y & _ & Hy). by apply (Hf y).
Qed.

(** X2: a feed that is XML gives a table only as a whole: when it has no
    second child, or when one of the plays under it has no text or cannot
    be parsed, [scrape_game] returns [None]. *)
Theorem X2_scrape_game_all_or_nothing (espn_xml : string) (tree : element)
    (Htree : fromstring (replace_char "019" "-" espn_xml) = Some tree) :
  (el_children tree !! 1%nat = None → espn_pbp.scrape_game (Ret espn_xml) = None) ∧
  (∀ events event,
     el_children tree !! 1%nat = Some events → event ∈ el_children events →
     (el_text event = None ∨
      ∃ t, el_text event = Some t ∧ ∀ play, espn_pbp.parse_event t ≠ Ret play) →
     espn_pbp.scrape_game (Ret espn_xml) = None).
Proof.
  unfold espn_pbp.scrape_game, espn_pbp.parse_espn. cbv zeta. rewrite Htree. split.
  - intros Hnone. unfold item. by rewrite Hnone.
  - intros events event Hev Hin Hbad. unfold item. rewrite Hev. cbn [mbind outcome_bind].
    destruct (mapO _ (el_children events)) as [plays|e] eqn:Hm; [|done].
    exfalso. eapply (mapO_Raise _ _ event Hin); [|exact Hm].
    intros play. destruct Hbad as [->|(t & -> & Ht)]; [done|apply Ht].
Qed.

(** X3: the table [parse_espn] returns has the five columns of the
    auxiliary table, a cell for each of them in every row, the default
    index, and at most as many rows as the feed has plays. *)
Theorem X3_parse_espn_shape (espn_xml : string) (df : DataFrame)
    (Hdf : espn_pbp.parse_espn espn_xml = Ret df) :
  columns df = ["period"; "time_elapsed"; "event"; "xC"; "yC"] ∧
  (∀ r, r ∈ rows df → r.2.*1 = ["period"; "time_elapsed"; "event"; "xC"; "yC"]) ∧
  range_labelled (rows df) ∧
  (∀ tree events, fromstring (replace_char "019" "-" espn_xml) = Some tree →
     el_children tree !! 1%nat = Some events → (nrows df ≤ length (el_children events))%nat).
Proof.
  apply parse_espn_Ret in Hdf as [[Hbad ->]|(tree & events & plays & Ht & He & Hplays & ->)].
  - split_and!; [done|by intros r ?%elem_of_nil|by intros i r ?|].
    intros tree events Ht. congruence.
  - split_and!; [done| |apply range_labelled_range_index|].
    + intros r (rec & _ & Heq)%elem_of_rows_df_of_records.
      transitivity ((mk_row espn_pbp.columns (get rec)).*1); [|apply fst_mk_row].
      f_equal. exact Heq.
    + intros tree' events' Ht' He'. assert (events' = events) as -> by congruence.
      unfold nrows, df_of_records, range_index. cbn [rows].
      rewrite length_imap, length_fmap. apply Forall2_length in Hplays. rewrite Hplays.
      apply length_omap_le.
Qed.

Lemma range_step2_SS n :
  espn_pbp.range_step2 (S (S n)) = 0%nat :: ((λ i, (2 + i)%nat) <$> espn_pbp.range_step2 n).
Proof.
  unfold espn_pbp.range_step2.
  replace ((S (S n) + 1) / 2)%nat with (S ((n + 1) / 2)).
  2:{ replace (S (S n) + 1)%nat with (1 * 2 + (n + 1))%nat by lia.
      rewrite Nat.div_add_l by lia. lia. }
  cbn [seq fmap list_fmap]. f_equal. rewrite <- fmap_S_seq, <- !list_fmap_compose.
  apply list_fmap_ext. intros i k _. cbn. lia.
Qed.

(** The games of a list of teams: two by two. *)
Lemma games_unfold {A} (a b : A) (t : list A) :
  (λ i, take 2 (drop i (a :: b :: t))) <$> espn_pbp.range_step2 (length (a :: b :: t))
  = [a; b] :: ((λ i, take 2 (drop i t)) <$> espn_pbp.range_step2 (length t)).
Proof.
  cbn [length]. rewrite range_step2_SS, fmap_cons, <- list_fmap_compose. done.
Qed.

Lemma games_spec {A} (n : nat) (l : list A) :
  (length l ≤ n)%nat →
  let games := (λ i, take 2 (drop i l)) <$> espn_pbp.range_step2 (length l) in
  mjoin games = l ∧ length games = ((length l + 1) / 2)%nat ∧
  (∀ i g, games !! i = Some g →
     if decide (2 * i + 1 < length l)%nat then length g = 2%nat else length g = 1%nat).
Proof.
  revert l. induction n as [|n IH]; intros l Hn.
  { destruct l; [|cbn in Hn; lia]. split_and!; [done|done|by intros i g ?]. }
  destruct l as [|a [|b t]].
  - split_and!; [done|done|by intros i g ?].
  - split_and!; [done|done|]. intros [|i] g; [|done]. by intros [= <-].
  - cbv zeta. rewrite games_unfold.
    destruct (IH t) as (Hj & Hl & Hg); [cbn in Hn; lia|]. split_and!.
    + transitivity ([a; b] ++
        mjoin ((λ i, take 2 (drop i t)) <$> espn_pbp.range_step2 (length t))); [done|].
      by rewrite Hj.
    + cbn [length]. rewrite Hl.
      replace (S (S (length t)) + 1)%nat with (1 * 2 + (length t + 1))%nat by lia.
      rewrite Nat.div_add_l by lia. lia.
    + intros [|i] g.
      * intros [= <-]. cbn [length]. by rewrite decide_True by lia.
      * cbn [lookup list_lookup]. intros Hi%Hg. cbn [length].
        destruct (decide (2 * i + 1 < length t)%nat).
        -- by rewrite decide_True by lia.
        -- by rewrite decide_False by lia.
Qed.

(** X4: [get_teams] cuts the list of the teams of the page (the cells with
    a text, upper-cased and through [shared.get_team]) into games of two,
    in order: joined together the games give the list back, every game has
    two teams but the last one when the number of teams is odd, which has
    one. *)
Theorem X4_get_teams_pairs (get_team : string → string) (td : list string) :
  let teams := (λ t, get_team (upper t)) <$> filter (λ t, t ≠ "") td in
  mjoin (espn_pbp.get_teams get_team td) = teams ∧
  length (espn_pbp.get_teams get_team td) = ((length teams + 1) / 2)%nat ∧
  (∀ i g, espn_pbp.get_teams get_team td !! i = Some g →
     if decide (2 * i + 1 < length teams)%nat then length g = 2%nat else length g = 1%nat).
Proof. unfold espn_pbp.get_teams. cbv zeta. by eapply games_spec. Qed.

(** X5: [get_espn_game_id] returns the id at the position of the first
    game that lists the home team or the away team; it returns [None] when
    no game lists either, and raises [IndexError] when the list of ids is
    too short for that position. *)
Theorem X5_get_espn_game_id_first (game_ids : list string) (games : list (list string))
    (home_team away_team : string) :
  (∀ i g, games !! i = Some g → (home_team ∈ g ∨ away_team ∈ g) →
          (∀ j g', games !! j = Some g' → (j < i)%nat → ¬ (home_team ∈ g' ∨ away_team ∈ g')) →
          espn_pbp.get_espn_game_id game_ids games home_team away_team
          = match game_ids !! i with Some id => Ret (Some id) | None => Raise IndexError end) ∧
  ((∀ g, g ∈ games → ¬ (home_team ∈ g ∨ away_team ∈ g)) ↔
   espn_pbp.get_espn_game_id game_ids games home_team away_team = Ret None).
Proof.
  unfold espn_pbp.get_espn_game_id. split.
  - intros i g Hi Hg Hfirst.
    rewrite (proj2 (list_find_Some _ games i g)) by (split_and!; done).
    unfold item. by destruct (game_ids !! i).
  - destruct (list_find _ games) as [[i g]|] eqn:E.
    + apply list_find_Some in E as (Hi & Hg & _). split.
      * intros Hall. destruct (Hall g); [by eapply list_elem_of_lookup_2|done].
      * unfold item. by destruct (game_ids !! i).
    + apply list_find_None in E. rewrite Forall_forall in E. done.
Qed.

End espn_more.

(** ** game_scraper.py: the player directory and the resolver *)

Section resolver_more.
Context `{Externals}.

Lemma get_players_json_step_named players pj :
  (∃ players', game_scraper.get_players_json_step players pj = Ret players') ↔ named_entry pj.
Proof.
  unfold game_scraper.get_players_json_step, named_entry, game_scraper.json_item. split.
  - intros [players' Hstep].
    destruct (pj !! "fullName") as [[| | | |s]|]; try done. cbn in Hstep.
    destruct (pj !! "lastName") as [[| | | |l]|]; try done. eauto.
  - intros [[s ->] [l ->]]. cbn. destruct (pj !! "id"); eauto.
Qed.

Lemma get_players_json_step_entry players pj players' :
  game_scraper.get_players_json_step players pj = Ret players' →
  ∃ n l, entry_name pj = Some n ∧ pj !! "lastName" = Some (VStr l) ∧
    players' = <[n := game_scraper.mkJsonPlayer (default (VStr "NA") (pj !! "id")) (upper l)]> players.
Proof.
  unfold game_scraper.get_players_json_step, entry_name, game_scraper.json_item.
  destruct (pj !! "fullName") as [[| | | |s]|]; try done. cbn.
  destruct (pj !! "lastName") as [[| | | |l]|]; try done. cbn.
  destruct (pj !! "id") as [i|]; intros [= <-]; exists (fix_name (upper s)), l;
    by rewrite insert_insert_eq.
Qed.

(** X6: [get_players_json] returns a dict exactly when every entry of the
    directory has a string under [fullName] and under [lastName]; an entry
    without [id] does not make it fail. *)
Theorem X6_get_players_json_returns (players_json : list (string * gmap string val)) :
  (∃ players, game_scraper.get_players_json players_json = Ret players) ↔
  Forall (λ e, named_entry e.2) players_json.
Proof.
  unfold game_scraper.get_players_json.
  rewrite <- (Forall_fmap snd named_entry players_json).
  generalize (players_json.*2) (∅ : gmap string game_scraper.JsonPlayer).
  intros l. induction l as [|pj l IH]; intros m0; cbn [game_scraper.foldO].
  - split; [constructor|eauto].
  - rewrite Forall_cons, <- get_players_json_step_named. split.
    + intros (m & (m1 & Hstep & Hrest)%bind_Ret). split; [eauto|].
      apply (IH m1). eauto.
    + intros [[m1 Hstep] Hl]. rewrite (Hstep : _ = Ret m1). cbn [mbind outcome_bind].
      by apply IH.
Qed.

Lemma foldO_players_entries m0 l m :
  game_scraper.foldO game_scraper.get_players_json_step m0 l = Ret m →
  ∀ n,
    (is_Some (m !! n) ↔ is_Some (m0 !! n) ∨ ∃ pj, pj ∈ l ∧ entry_name pj = Some n) ∧
    (∀ jp, m !! n = Some jp →
       m0 !! n = Some jp ∨
       ∃ pj last, pj ∈ l ∧ entry_name pj = Some n ∧ pj !! "lastName" = Some (VStr last) ∧
                  jp = game_scraper.mkJsonPlayer (default (VStr "NA") (pj !! "id")) (upper last)).
Proof.
  revert m0. induction l as [|pj l IH]; intros m0; cbn [game_scraper.foldO].
  - intros [= <-] n. split; [|by left]. split; [by left|].
    by intros [?|(pj & ?%elem_of_nil & _)].
  - intros (m1 & (n1 & last & Hn1 & Hlast & ->)%get_players_json_step_entry & Hrest)%bind_Ret n.
    destruct (IH _ Hrest n) as [Hdom Hval]. split.
    + rewrite Hdom. destruct (decide (n1 = n)) as [->|Hne].
      * rewrite lookup_insert_eq. split.
        -- intros _. right. exists pj. split; [by left|done].
        -- intros _. left. eauto.
      * rewrite lookup_insert_ne by done. split.
        -- intros [?|(pj' & Hin & Hn)]; [by left|]. right. exists pj'. split; [by right|done].
        -- intros [?|(pj' & [->|Hin]%elem_of_cons & Hn)]; [by left|congruence|].
           right. eauto.
    + intros jp [Hjp|(pj' & last' & Hin & Hrest')]%Hval.
      * destruct (decide (n1 = n)) as [->|Hne].
        -- rewrite lookup_insert_eq in Hjp. injection Hjp as <-.
           right. exists pj, last. split_and!; [by left|done..].
        -- rewrite lookup_insert_ne in Hjp by done. by left.
      * right. exists pj', last'. split; [by right|done].
Qed.

(** X7: the names of the dict that [get_players_json] returns are the
    normalised upper-cased full names of the directory, and what it holds
    for a name comes from an entry of that name: its id, ['NA'] when it has
    none (never the [' '] the entry is first given), and its upper-cased
    last name. *)
Theorem X7_get_players_json_entries (players_json : list (string * gmap string val))
    (players : gmap string game_scraper.JsonPlayer)
    (Hrun : game_scraper.get_players_json players_json = Ret players) :
  ∀ n,
    (is_Some (players !! n) ↔ ∃ e, e ∈ players_json ∧ entry_name e.2 = Some n) ∧
    (∀ jp, players !! n = Some jp →
       ∃ e last, e ∈ players_json ∧ entry_name e.2 = Some n ∧
                 e.2 !! "lastName" = Some (VStr last) ∧
                 game_scraper.js_id jp = default (VStr "NA") (e.2 !! "id") ∧
                 game_scraper.js_last_name jp = upper last).
Proof.
  intros n. destruct (foldO_players_entries _ _ _ Hrun n) as [Hdom Hval]. split.
  - rewrite Hdom, lookup_empty. split.
    + intros [[? [=]]|(pj & (e & -> & He)%list_elem_of_fmap & Hn)]. eauto.
    + intros (e & He & Hn). right. exists e.2. split; [|done].
      apply list_elem_of_fmap. eauto.
  - intros jp [Hjp|(pj & last & (e & -> & He)%list_elem_of_fmap & Hn & Hl & ->)]%Hval.
    + by rewrite lookup_empty in Hjp.
    + exists e, last. done.
Qed.

(** The names of one venue after the loop. *)
Lemma foldM_combine_player_dom json_players game_id l :
  Forall wf_entry l → ∀ players d,
  ∃ players' d',
    game_scraper.foldM (game_scraper.combine_player json_players game_id) players l d
    = (Ret players', d') ∧
    ∀ n, is_Some (players' !! n) ↔
         is_Some (players !! n) ∨
         ∃ number position name scratch,
           [number; position; VStr name; scratch] ∈ l ∧ fix_name name = n ∧
           is_Some (resolve_entry json_players number position name scratch).
Proof.
  induction 1 as [|e l (number & position & name & scratch & ->) _ IH]; intros players d.
  - exists players, d. split; [done|]. intros n. split; [by left|].
    by intros [?|(? & ? & ? & ? & ?%elem_of_nil & _)].
  - cbn [game_scraper.foldM]. erewrite bindM_run by apply combine_player_wf.
    edestruct IH as (players' & d' & -> & Hdom). exists players', d'. split; [done|].
    intros n. rewrite Hdom. clear Hdom. split.
    + intros [Hn|(nu & po & na & sc & Hin & Hn & Hres)].
      * destruct (resolve_entry json_players number position name scratch) as [q|] eqn:Hq;
          [|by left].
        destruct (decide (fix_name name = n)) as [<-|Hne].
        -- right. exists number, position, name, scratch. rewrite Hq.
           split_and!; [by left|done|eauto].
        -- rewrite lookup_insert_ne in Hn by done. by left.
      * right. exists nu, po, na, sc. split_and!; [by right|done|done].
    + intros [Hn|(nu & po & na & sc & [Heq|Hin]%elem_of_cons & Hn & Hres)].
      * left. destruct (resolve_entry _ _ _ _ _); [|done].
        destruct (decide (fix_name name = n)) as [<-|Hne].
        -- rewrite lookup_insert_eq. eauto.
        -- by rewrite lookup_insert_ne.
      * injection Heq as -> -> -> ->. left. destruct Hres as [q ->]. subst n.
        rewrite lookup_insert_eq. eauto.
      * right. exists nu, po, na, sc. done.
Qed.

Lemma M_run_eq {A} (x y : outcome A * game_scraper.Diag) a b d1 d2 :
  x = (Ret a, d1) → x = (Ret b, d2) → a = b.
Proof. intros -> [= ->]. done. Qed.

(** X8: on a roster whose entries are well formed the resolver returns
    the dict of the two venues, and the names of a venue are exactly the
    normalised names of its entries that the directory has or that are
    neither scratches nor goalies: it never loses a name it has filed. *)
Theorem X8_resolver_names (json_players : gmap string game_scraper.JsonPlayer)
    (roster : gmap string (list (list val))) (game_id : val) (home away : list (list val))
    (d : game_scraper.Diag)
    (Hhome : roster !! "Home" = Some home) (Haway : roster !! "Away" = Some away)
    (Hwf : Forall wf_entry (home ++ away)) :
  ∃ ph pa d',
    game_scraper.combine_players_lists json_players roster game_id d
    = (Ret (<["Away" := pa]> (<["Home" := ph]> ∅)), d') ∧
    ∀ l m, (l = home ∧ m = ph) ∨ (l = away ∧ m = pa) →
      ∀ n, is_Some (m !! n) ↔
           ∃ number position name scratch,
             [number; position; VStr name; scratch] ∈ l ∧ fix_name name = n ∧
             is_Some (resolve_entry json_players number position name scratch).
Proof.
  apply Forall_app in Hwf as [Hwh Hwa].
  unfold game_scraper.combine_players_lists, game_scraper.combine_venue. rewrite Hhome, Haway.
  destruct (foldM_combine_player_dom json_players game_id home Hwh ∅ d) as (ph & d1 & Hph & Hdh).
  erewrite bindM_run by exact Hph.
  destruct (foldM_combine_player_dom json_players game_id away Hwa ∅ d1) as (pa & d2 & Hpa & Hda).
  erewrite bindM_run by exact Hpa.
  exists ph, pa, d2. split; [done|].
  intros l m [[-> ->]|[-> ->]] n.
  - rewrite Hdh, lookup_empty. split; [intros [[? [=]]|?]; done|by right].
  - rewrite Hda, lookup_empty. split; [intros [[? [=]]|?]; done|by right].
Qed.

(** X9: a roster without the key ['Home'] makes the resolver raise
    [KeyError] with the diagnostics untouched; with ['Home'] but without
    ['Away'] it raises as well, after the records of the home entries have
    been appended to [players_missing_ids], where they stay. *)
Theorem X9_resolver_missing_venue (json_players : gmap string game_scraper.JsonPlayer)
    (roster : gmap string (list (list val))) (game_id : val) (d : game_scraper.Diag) :
  (roster !! "Home" = None →
   game_scraper.combine_players_lists json_players roster game_id d = (Raise KeyError, d)) ∧
  (∀ home, roster !! "Home" = Some home → Forall wf_entry home → roster !! "Away" = None →
     game_scraper.combine_players_lists json_players roster game_id d
     = (Raise KeyError,
        with_missing d
          (missing_record game_id <$> filter (λ e, recorded json_players e = true) home))).
Proof.
  unfold game_scraper.combine_players_lists, game_scraper.combine_venue. split.
  - by intros ->.
  - intros home -> Hwf ->.
    destruct (foldM_combine_player json_players game_id home Hwf ∅ d) as (ph & Hph & _).
    erewrite bindM_run by exact Hph. done.
Qed.

(** *** Computations that only append to [players_missing_ids] *)

Lemma appends_missing_bind {A B} (m : game_scraper.M A) (f : A → game_scraper.M B) :
  appends_missing m → (∀ a, appends_missing (f a)) → appends_missing (m ≫= f).
Proof.
  intros Hm Hf d. destruct (Hm d) as [n1 H1]. unfold mbind, game_scraper.M_bind.
  destruct (m d) as [[a|e] d1]; cbn in H1; subst d1; [|eauto].
  destruct (Hf a (with_missing d n1)) as [n2 ->]. rewrite with_missing_app. eauto.
Qed.

Lemma appends_missing_lift {A} (o : outcome A) : appends_missing (game_scraper.lift o).
Proof. intros d. exists []. by rewrite with_missing_nil. Qed.

Lemma appends_missing_mret {A} (a : A) : appends_missing (mret a : game_scraper.M A).
Proof. intros d. exists []. by rewrite with_missing_nil. Qed.

Lemma appends_missing_extend r :
  appends_missing (game_scraper.extend_players_missing_ids r).
Proof. intros d. by exists [r]. Qed.

Ltac appends_missing_step :=
  first [apply appends_missing_lift | apply appends_missing_mret
        |apply appends_missing_extend
        |apply appends_missing_bind; [|intros ?]].

Ltac appends_missing_solve :=
  repeat first
    [appends_missing_step
    |match goal with
     | |- appends_missing (if ?b then _ else _) => destruct b
     | |- appends_missing (match ?x with _ => _ end) => destruct x
     end].

Lemma appends_missing_combine_player json_players game_id players player :
  appends_missing (game_scraper.combine_player json_players game_id players player).
Proof. unfold game_scraper.combine_player. appends_missing_solve. Qed.

Lemma appends_missing_foldM {A B} (f : A → B → game_scraper.M A) (l : list B) :
  (∀ a b, appends_missing (f a b)) → ∀ a, appends_missing (game_scraper.foldM f a l).
Proof.
  intros Hf. induction l as [|x l IH]; intros a; cbn [game_scraper.foldM].
  - apply appends_missing_mret.
  - apply appends_missing_bind; [apply Hf|apply IH].
Qed.

Lemma appends_missing_combine_players_lists json_players roster game_id :
  appends_missing (game_scraper.combine_players_lists json_players roster game_id).
Proof.
  assert (∀ venue, appends_missing
            (game_scraper.combine_venue json_players roster game_id venue)) as Hv.
  { intros venue. unfold game_scraper.combine_venue. destruct (roster !! venue).
    - apply appends_missing_foldM. intros. apply appends_missing_combine_player.
    - apply appends_missing_lift. }
  unfold game_scraper.combine_players_lists.
  apply appends_missing_bind; [apply Hv|intros ?].
  apply appends_missing_bind; [apply Hv|intros ?]. apply appends_missing_mret.
Qed.

(** X10: [get_teams_and_players] never raises, whatever it is given: it
    returns the players and the teams, or [None] for both, never one
    without the other; and it changes nothing of the diagnostics but
    [players_missing_ids], to which it can only append, also when it
    returns [None, None]. *)
Theorem X10_get_teams_and_players_total (game_json : option game_scraper.GameJson)
    (roster : option game_scraper.Roster) (game_id : val) (d : game_scraper.Diag) :
  ∃ r new,
    game_scraper.get_teams_and_players game_json roster game_id d = (Ret r, with_missing d new) ∧
    (r = (None, None) ∨ ∃ players teams, r = (Some players, Some teams)).
Proof.
  unfold game_scraper.get_teams_and_players.
  match goal with
  | |- context [match ?body d with _ => _ end] =>
      assert (appends_missing body) as Hbody; [|destruct (Hbody d) as [new Hnew];
        destruct (body d) as [[[players teams]|e] d1]; cbn in Hnew; subst d1]
  end.
  - do 5 (apply appends_missing_bind; [apply appends_missing_lift|intros ?]).
    apply appends_missing_bind; [apply appends_missing_combine_players_lists|intros ?].
    destruct a4. apply appends_missing_mret.
  - exists (Some players, Some teams), new. split; [done|]. right. eauto.
  - exists (None, None), new. split; [done|]. by left.
Qed.

End resolver_more.
